(** * Metabolomics toolkit: dataset manager and residual pipeline

    A shallow embedding of [src/manager.py] (class [DatasetManager]) and
    [src/effects_models.py] (class [EffectsHandler]).

    The Python classes work on pandas tables.  A table is modelled as a
    list of labelled rows under a list of column labels; the pandas
    operations the classes call are written out in [Module Pandas] with
    the behaviour of pandas 2 (label look-ups that raise [KeyError] on a
    missing label, label selection that repeats rows of a duplicated
    label, grouping that sorts the keys and leaves missing keys out).
    Methods that assign to [self] are functions from the state of the
    object to an outcome and the state after the call, so that what an
    exception leaves behind can be read off. *)

From Stdlib Require Import ZArith List String Ascii Bool Lia DecimalString Permutation.
Import ListNotations.
Open Scope string_scope.
Open Scope list_scope.

(** ** Python values and exceptions *)

Module Py.

(** A cell or a label of a table: text, a number, or the missing marker
    [NaN].  Numbers are carried as integers: the classes never compute
    with them, they are only stored, compared and printed. *)
Inductive value : Type :=
| VStr (s : string)
| VInt (z : Z)
| VNaN.

Definition value_eq_dec (a b : value) : {a = b} + {a <> b}.
Proof. decide equality; [apply string_dec | apply Z.eq_dec]. Defined.

Definition value_eqb (a b : value) : bool :=
  if value_eq_dec a b then true else false.

(** [x in l] *)
Definition mem (x : value) (l : list value) : bool := existsb (value_eqb x) l.

(** [str(v)], also what [astype(str)] does to each element. *)
Definition py_str (v : value) : value :=
  match v with
  | VStr s => VStr s
  | VInt z => VStr (NilZero.string_of_int (Z.to_int z))
  | VNaN => VStr "nan"
  end.

Definition is_str (v : value) : Prop :=
  match v with VStr _ => True | _ => False end.

Definition is_nan (v : value) : bool :=
  match v with VNaN => true | _ => false end.

(** The exceptions the classes and pandas raise.  [MergeError] of pandas
    is a [ValueError].  [OutOfModel] marks the one pandas behaviour left
    out: addressing a single column whose label occurs more than once,
    where pandas hands back a sub-table instead of a series. *)
Inductive exn : Type :=
| ValueError
| KeyError
| AttributeError
| NotImplementedError
| OutOfModel.

Inductive result (A : Type) : Type :=
| Ok (a : A)
| Raise (e : exn).

Arguments Ok {A} a.
Arguments Raise {A} e.

Definition rbind {A B} (r : result A) (k : A -> result B) : result B :=
  match r with
  | Ok a => k a
  | Raise e => Raise e
  end.

(** [isinstance(x, list)]: a method argument is one identifier or a list. *)
Inductive ids_arg : Type :=
| One (v : value)
| Many (l : list value).

Definition as_list (a : ids_arg) : list value :=
  match a with
  | One v => [v]
  | Many l => l
  end.

(** ASCII lower-casing.  Python's [str.lower] also folds letters outside
    ASCII; none of them folds to a letter of the word the manager
    compares with, so the comparison is the same. *)
Definition lower_ascii (c : ascii) : ascii :=
  let n := nat_of_ascii c in
  if (65 <=? n)%nat && (n <=? 90)%nat then ascii_of_nat (n + 32) else c.

Fixpoint lower (s : string) : string :=
  match s with
  | EmptyString => EmptyString
  | String c r => String (lower_ascii c) (lower r)
  end.

End Py.

Export Py.

Declare Scope result_scope.
Delimit Scope result_scope with result.
Notation "'let*' x ':=' r 'in' k" := (rbind r (fun x => k))
  (at level 61, x name, r at next level, right associativity) : result_scope.

(** ** The pandas operations used by the classes *)

Module Pandas.

Definition row : Type := (value * list value)%type.

Record DataFrame : Type := mkDF {
  index_name : option value;
  columns : list value;
  rows : list row
}.

(** A series: labelled cells. *)
Definition Series : Type := list (value * value).

Definition index (df : DataFrame) : list value := map fst (rows df).

(** [pd.DataFrame()] *)
Definition empty_frame : DataFrame := mkDF None [] [].

(** [len(df)] *)
Definition len (df : DataFrame) : nat := List.length (rows df).

(** The cells of a row that stand under the columns selected by [f]. *)
Fixpoint cells_where (f : value -> bool) (cols : list value) (cells : list value)
  : list value :=
  match cols, cells with
  | c :: cs, v :: vs =>
      if f c then v :: cells_where f cs vs else cells_where f cs vs
  | _, _ => []
  end.

Definition pick (c : value) : list value -> list value -> list value :=
  cells_where (fun x => value_eqb x c).

(** Overwrite the cells under every column labelled [c]. *)
Fixpoint put (c v : value) (cols cells : list value) : list value :=
  match cols, cells with
  | x :: xs, w :: ws => (if value_eqb x c then v else w) :: put c v xs ws
  | _, _ => []
  end.

Definition occurrences (c : value) (cols : list value) : list value :=
  filter (fun x => value_eqb x c) cols.

(** [df[c]] for one label. *)
Definition get_col (df : DataFrame) (c : value) : result Series :=
  match occurrences c (columns df) with
  | [] => Raise KeyError
  | [_] => Ok (map (fun r => (fst r, hd VNaN (pick c (columns df) (snd r)))) (rows df))
  | _ => Raise OutOfModel
  end.

Fixpoint zip_with {A B C} (f : A -> B -> C) (l : list A) (m : list B) : list C :=
  match l, m with
  | a :: l', b :: m' => f a b :: zip_with f l' m'
  | _, _ => []
  end.

(** [df[c] = vals] for cells given in row order: an existing column is
    overwritten, a new label is appended as the last column. *)
Definition set_col (df : DataFrame) (c : value) (vals : list value)
  : result DataFrame :=
  if negb (List.length vals =? len df)%nat then Raise ValueError
  else if mem c (columns df) then
    Ok (mkDF (index_name df) (columns df)
          (zip_with (fun r v => (fst r, put c v (columns df) (snd r))) (rows df) vals))
  else
    Ok (mkDF (index_name df) (columns df ++ [c])
          (zip_with (fun r v => (fst r, snd r ++ [v])) (rows df) vals)).

(** [df.columns = labels] *)
Definition set_columns (df : DataFrame) (labels : list value) : result DataFrame :=
  if (List.length labels =? List.length (columns df))%nat
  then Ok (mkDF (index_name df) labels (rows df))
  else Raise ValueError.

(** [df.set_index(c)]: the column becomes the index and leaves the columns. *)
Definition set_index (df : DataFrame) (c : value) : result DataFrame :=
  match occurrences c (columns df) with
  | [] => Raise KeyError
  | [_] =>
      Ok (mkDF (Some c)
            (filter (fun x => negb (value_eqb x c)) (columns df))
            (map (fun r => (hd VNaN (pick c (columns df) (snd r)),
                            cells_where (fun x => negb (value_eqb x c))
                              (columns df) (snd r)))
               (rows df)))
  | _ => Raise ValueError
  end.

Definition range_index (n : nat) : list value :=
  map (fun i => VInt (Z.of_nat i)) (seq 0 n).

(** The label [reset_index] gives to the column made from the index. *)
Definition reset_name (df : DataFrame) : value :=
  match index_name df with
  | Some n => n
  | None => if mem (VStr "index") (columns df) then VStr "level_0" else VStr "index"
  end.

(** [df.reset_index()]: the index becomes the first column; it fails when
    a column of that label is already there. *)
Definition reset_index (df : DataFrame) : result DataFrame :=
  let n := reset_name df in
  if mem n (columns df) then Raise ValueError
  else Ok (mkDF None (n :: columns df)
             (combine (range_index (len df))
                (map (fun r => fst r :: snd r) (rows df)))).

Definition rows_labelled (l : value) (rs : list row) : list row :=
  filter (fun r => value_eqb (fst r) l) rs.

(** [df.loc[labels]]: every label must be in the index; the rows come in
    the order of [labels], each label bringing all rows it names.  [name]
    is the name of the resulting index: that of the key when the key is
    an index, that of the table when the key is a list. *)
Definition loc (df : DataFrame) (name : option value) (labels : list value)
  : result DataFrame :=
  if forallb (fun l => mem l (index df)) labels
  then Ok (mkDF name (columns df)
             (flat_map (fun l => rows_labelled l (rows df)) labels))
  else Raise KeyError.

(** [df[labels]] for a list of column labels. *)
Definition select_cols (df : DataFrame) (labels : list value) : result DataFrame :=
  if forallb (fun l => mem l (columns df)) labels
  then Ok (mkDF (index_name df)
             (flat_map (fun l => occurrences l (columns df)) labels)
             (map (fun r => (fst r,
                             flat_map (fun l => pick l (columns df) (snd r)) labels))
                (rows df)))
  else Raise KeyError.

(** [df.drop(index=labels)] *)
Definition drop_rows (df : DataFrame) (labels : list value) : result DataFrame :=
  if forallb (fun l => mem l (index df)) labels
  then Ok (mkDF (index_name df) (columns df)
             (filter (fun r => negb (mem (fst r) labels)) (rows df)))
  else Raise KeyError.

(** [df.drop(columns=labels)] *)
Definition drop_cols (df : DataFrame) (labels : list value) : result DataFrame :=
  if forallb (fun l => mem l (columns df)) labels
  then Ok (mkDF (index_name df)
             (filter (fun c => negb (mem c labels)) (columns df))
             (map (fun r => (fst r,
                             cells_where (fun c => negb (mem c labels))
                               (columns df) (snd r)))
                (rows df)))
  else Raise KeyError.

(** [df[mask]] for a boolean mask in row order. *)
Definition where_mask (df : DataFrame) (mask : list bool) : DataFrame :=
  mkDF (index_name df) (columns df)
    (map fst (filter snd (combine (rows df) mask))).

(** [df.loc[:] = nan] *)
Definition fill_nan (df : DataFrame) : DataFrame :=
  mkDF (index_name df) (columns df)
    (map (fun r => (fst r, map (fun _ => VNaN) (snd r))) (rows df)).

(** [Index.is_unique] *)
Fixpoint is_unique (l : list value) : bool :=
  match l with
  | [] => true
  | x :: xs => negb (mem x xs) && is_unique xs
  end.

(** [Index.equals] *)
Fixpoint labels_eqb (l m : list value) : bool :=
  match l, m with
  | [], [] => true
  | x :: l', y :: m' => value_eqb x y && labels_eqb l' m'
  | _, _ => false
  end.

(** The cell a series holds for a label, missing when it has none. *)
Definition series_get (s : Series) (l : value) : value :=
  match find (fun p => value_eqb (fst p) l) s with
  | Some p => snd p
  | None => VNaN
  end.

(** [df[c] = s] for a series: the series is aligned on the index of the
    table, rows it does not name get the missing marker, and a series
    with a repeated label cannot be aligned.  A table without rows first
    takes the index of the series. *)
Definition set_col_series (df : DataFrame) (c : value) (s : Series)
  : result DataFrame :=
  let df0 :=
    if (len df =? 0)%nat && negb (List.length s =? 0)%nat
    then mkDF (index_name df) (columns df)
           (map (fun p => (fst p, repeat VNaN (List.length (columns df)))) s)
    else df in
  if labels_eqb (map fst s) (index df0) then set_col df0 c (map snd s)
  else if is_unique (map fst s) then set_col df0 c (map (series_get s) (index df0))
  else Raise ValueError.

(** *** Joining two tables on their indexes *)

Inductive how : Type := Inner | Left.

(** A column label found on both sides gets the side's suffix. *)
Definition suffixed (sfx : string) (overlap : list value) (c : value) : value :=
  if mem c overlap
  then match py_str c with VStr s => VStr (s ++ sfx) | v => v end
  else c.

(** [Index.duplicated()]: marks every occurrence after the first. *)
Fixpoint duplicated (seen l : list value) : list bool :=
  match l with
  | [] => []
  | x :: xs => mem x seen :: duplicated (x :: seen) xs
  end.

(** Labels made equal by the suffixes. *)
Definition suffix_clash (orig renamed : list value) : bool :=
  existsb (fun p => fst p && negb (snd p))
    (combine (duplicated [] renamed) (duplicated [] orig)).

Definition join_rows (h : how) (width : nat) (l r : list row) : list row :=
  flat_map
    (fun lr =>
       match rows_labelled (fst lr) r with
       | [] => match h with
               | Inner => []
               | Left => [(fst lr, snd lr ++ repeat VNaN width)]
               end
       | ms => map (fun rr => (fst lr, snd lr ++ snd rr)) ms
       end) l.

(** [left.merge(right, left_index=True, right_index=True, how=h)] *)
Definition merge (left right : DataFrame) (h : how) : result DataFrame :=
  let overlap := filter (fun c => mem c (columns right)) (columns left) in
  let lcols := map (suffixed "_x" overlap) (columns left) in
  let rcols := map (suffixed "_y" overlap) (columns right) in
  if suffix_clash (columns left) lcols || suffix_clash (columns right) rcols
  then Raise ValueError
  else Ok (mkDF
             (match index_name left, index_name right with
              | Some a, Some b => if value_eqb a b then Some a else None
              | _, _ => None
              end)
             (lcols ++ rcols)
             (join_rows h (List.length (columns right)) (rows left) (rows right))).

(** *** Grouping *)

(** The order of group keys: numbers before text. *)
Definition value_ltb (a b : value) : bool :=
  match a, b with
  | VInt x, VInt y => (x <? y)%Z
  | VInt _, _ => true
  | VStr _, VInt _ => false
  | VStr x, VStr y => String.ltb x y
  | VStr _, VNaN => true
  | VNaN, _ => false
  end.

Fixpoint insert_key (k : value) (l : list value) : list value :=
  match l with
  | [] => [k]
  | x :: xs => if value_ltb k x then k :: l else x :: insert_key k xs
  end.

Definition sort_keys (l : list value) : list value := fold_right insert_key [] l.

(** The keys of the groups: the values that are not missing, each once,
    sorted. *)
Definition group_keys (ks : list value) : list value :=
  sort_keys (nodup value_eq_dec (filter (fun k => negb (is_nan k)) ks)).

(** The grouping key of every row for [groupby(by=by_)]: a column, or the
    index when [by_] is its name. *)
Definition grouper (df : DataFrame) (by_ : value) : result (list value) :=
  let named := match index_name df with
               | Some n => value_eqb n by_
               | None => false
               end in
  match occurrences by_ (columns df) with
  | [] => if named then Ok (index df) else Raise KeyError
  | [_] => if named then Raise ValueError
           else Ok (map (fun r => hd VNaN (pick by_ (columns df) (snd r))) (rows df))
  | _ => Raise ValueError
  end.

(** [df.groupby(by=by)], as the list of (key, group) the loop runs over. *)
Definition groupby (df : DataFrame) (by_ : value)
  : result (list (value * DataFrame)) :=
  (let* ks := grouper df by_ in
   Ok (map (fun k => (k, where_mask df (map (fun x => value_eqb x k) ks)))
         (group_keys ks)))%result.

End Pandas.

Export Pandas.

(** ** The dataset manager, [src/manager.py] *)

Module Manager.

(** The attributes of a [DatasetManager] object.  The [parser] attribute
    only hands the tables it was given on to [_setup_data]; see
    [parser_import_tables]. *)
Record DatasetManager : Type := mkDM {
  _data_provider : string;
  _sample_id_column : value;
  sample_metadata : DataFrame;
  samples : list value;
  _metabolite_id_column : value;
  chemical_annotation : DataFrame;
  metabolites : list value;
  data : DataFrame
}.

(** *** Methods as state transformers with exceptions *)

Definition M (A : Type) : Type := DatasetManager -> result A * DatasetManager.

Definition ret {A} (a : A) : M A := fun s => (Ok a, s).

Definition raise {A} (e : exn) : M A := fun s => (Raise e, s).

Definition bind {A B} (m : M A) (k : A -> M B) : M B :=
  fun s =>
    match m s with
    | (Ok a, s') => k a s'
    | (Raise e, s') => (Raise e, s')
    end.

(** A pandas call whose result is not stored. *)
Definition lift {A} (r : result A) : M A := fun s => (r, s).

Definition gets {A} (f : DatasetManager -> A) : M A := fun s => (Ok (f s), s).

(** [try: m  except ValueError: h] *)
Definition except_ValueError {A} (m : M A) (h : M A) : M A :=
  fun s =>
    match m s with
    | (Raise ValueError, s') => h s'
    | r => r
    end.

Declare Scope manager_scope.
Delimit Scope manager_scope with manager.
Notation "x <- m ;; k" := (bind m (fun x => k))
  (at level 61, m at next level, right associativity) : manager_scope.
Notation "m ;; k" := (bind m (fun _ => k))
  (at level 61, right associativity) : manager_scope.

(** Assignments to the attributes of [self]. *)
Definition assign_sample_metadata (d : DataFrame) : M unit := fun s =>
  (Ok tt, mkDM (_data_provider s) (_sample_id_column s) d (samples s)
            (_metabolite_id_column s) (chemical_annotation s) (metabolites s) (data s)).

Definition assign_samples (l : list value) : M unit := fun s =>
  (Ok tt, mkDM (_data_provider s) (_sample_id_column s) (sample_metadata s) l
            (_metabolite_id_column s) (chemical_annotation s) (metabolites s) (data s)).

Definition assign_metabolite_id_column (c : value) : M unit := fun s =>
  (Ok tt, mkDM (_data_provider s) (_sample_id_column s) (sample_metadata s) (samples s)
            c (chemical_annotation s) (metabolites s) (data s)).

Definition assign_chemical_annotation (d : DataFrame) : M unit := fun s =>
  (Ok tt, mkDM (_data_provider s) (_sample_id_column s) (sample_metadata s) (samples s)
            (_metabolite_id_column s) d (metabolites s) (data s)).

Definition assign_metabolites (l : list value) : M unit := fun s =>
  (Ok tt, mkDM (_data_provider s) (_sample_id_column s) (sample_metadata s) (samples s)
            (_metabolite_id_column s) (chemical_annotation s) l (data s)).

Definition assign_data (d : DataFrame) : M unit := fun s =>
  (Ok tt, mkDM (_data_provider s) (_sample_id_column s) (sample_metadata s) (samples s)
            (_metabolite_id_column s) (chemical_annotation s) (metabolites s) d).

Open Scope manager_scope.

(** An update in place of a table held by [self]: nothing is stored when
    the pandas call raises. *)
Definition update_sample_metadata (f : DataFrame -> result DataFrame) : M unit :=
  d <- gets sample_metadata ;; d' <- lift (f d) ;; assign_sample_metadata d'.

Definition update_chemical_annotation (f : DataFrame -> result DataFrame) : M unit :=
  d <- gets chemical_annotation ;; d' <- lift (f d) ;; assign_chemical_annotation d'.

Definition update_data (f : DataFrame -> result DataFrame) : M unit :=
  d <- gets data ;; d' <- lift (f d) ;; assign_data d'.

(** [DatasetManager.__init__] *)
Definition init (data_provider : string) (sample_id_column metabolite_id_column : value)
  : result DatasetManager :=
  if String.eqb (lower data_provider) "metabolon"
  then Ok (mkDM (lower data_provider) sample_id_column empty_frame []
             metabolite_id_column empty_frame [] empty_frame)
  else Raise NotImplementedError.

(** Modelled from the spec: [parse_input] of [src/utils.py], which is not
    part of the sources at hand.  File and sheet ingestion is an external
    collaborator; a table that is already in memory is what the parsing
    yields. *)
Definition parse_input (t : DataFrame) : DataFrame := t.

(** [MetabolonCDT.import_tables] of [src/reader.py], for the three tables
    the manager passes: each goes through [parse_input] and is kept. *)
Definition parser_import_tables (sample_metadata0 chemical_annotation0 generic_data : DataFrame)
  : DataFrame * DataFrame * DataFrame :=
  (parse_input sample_metadata0, parse_input chemical_annotation0, parse_input generic_data).

(** [df[c] = df[c].astype(str)] *)
Definition astype_str_col (c : value) (df : DataFrame) : result DataFrame :=
  (let* col := get_col df c in set_col df c (map (fun p => py_str (snd p)) col))%result.

(** [_setup_data] *)
Definition _setup_data (chemical_annotation0 sample_metadata0 data0 : DataFrame) : M unit :=
  except_ValueError
    (let parsed_chemical_annotation := parse_input chemical_annotation0 in
     let parsed_sample_metadata := parse_input sample_metadata0 in
     let parsed_data := parse_input data0 in
     sid <- gets _sample_id_column ;;
     (if mem sid (columns parsed_data) && mem sid (columns parsed_sample_metadata)
      then
        assign_sample_metadata parsed_sample_metadata ;;
        update_sample_metadata (astype_str_col sid) ;;
        update_sample_metadata (fun df => set_index df sid) ;;
        assign_data parsed_data ;;
        update_data (fun df => set_columns df (map py_str (columns df))) ;;
        update_data (fun df => set_index df sid) ;;
        sm <- gets sample_metadata ;;
        assign_samples (index sm)
      else raise ValueError) ;;
     mid <- gets _metabolite_id_column ;;
     (if mem mid (columns parsed_chemical_annotation)
      then
        assign_chemical_annotation parsed_chemical_annotation ;;
        update_chemical_annotation (astype_str_col mid) ;;
        update_chemical_annotation (fun df => set_index df mid) ;;
        ca <- gets chemical_annotation ;;
        assign_metabolites (index ca)
      else raise ValueError))
    (raise ValueError).

(** [_remove_metadata_from_data] *)
Definition _remove_metadata_from_data : M unit :=
  except_ValueError
    (ca <- gets chemical_annotation ;;
     update_data (fun df => select_cols df (index ca)))
    (raise ValueError).

(** [import_tables] *)
Definition import_tables (data0 chemical_annotation0 sample_metadata0 : DataFrame) : M unit :=
  except_ValueError
    (let '(p_sample_metadata, p_chemical_annotation, p_generic_data) :=
       parser_import_tables sample_metadata0 chemical_annotation0 data0 in
     _setup_data p_chemical_annotation p_sample_metadata p_generic_data ;;
     _remove_metadata_from_data)
    (raise ValueError).

(** [merge_sample_metadata_data] *)
Definition merge_sample_metadata_data (s : DatasetManager) : result DataFrame :=
  merge (sample_metadata s) (data s) Inner.

(** A path argument is used when it is not [None] and not empty. *)
Definition truthy (p : option string) : bool :=
  match p with
  | Some s => negb (String.eqb s "")
  | None => false
  end.

Definition the_path (p : option string) : string :=
  match p with Some s => s | None => "" end.

(** What a save call writes: [(path, table)] for every [to_csv]. *)
Definition writes : Type := list (string * DataFrame).

(** [save_merged] *)
Definition save_merged (data_path : string) (chemical_annotation_path : option string)
    (s : DatasetManager) : result writes :=
  (let* merged := merge_sample_metadata_data s in
   if (len merged =? 0)%nat then Raise ValueError
   else Ok ([(data_path, merged)]
            ++ (if truthy chemical_annotation_path
                then [(the_path chemical_annotation_path, chemical_annotation s)]
                else [])))%result.

(** [save] *)
Definition save (data_path chemical_annotation_path sample_metadata_path : option string)
    (s : DatasetManager) : result writes :=
  if (len (data s) =? 0)%nat then Raise ValueError
  else Ok ((if truthy data_path then [(the_path data_path, data s)] else [])
           ++ (if truthy chemical_annotation_path
               then [(the_path chemical_annotation_path, chemical_annotation s)]
               else [])
           ++ (if truthy sample_metadata_path
               then [(the_path sample_metadata_path, sample_metadata s)]
               else [])).

(** [_update_chemical_annotation] *)
Definition _update_chemical_annotation : M unit :=
  d <- gets data ;;
  update_chemical_annotation (fun ca => loc ca (index_name ca) (columns d)) ;;
  ca <- gets chemical_annotation ;;
  assign_metabolites (index ca).

(** [_update_sample_metadata] *)
Definition _update_sample_metadata : M unit :=
  d <- gets data ;;
  update_sample_metadata (fun sm => loc sm (index_name d) (index d)) ;;
  sm <- gets sample_metadata ;;
  assign_samples (index sm).

(** [renaming_dict[old]] in a dictionary built from pairs: the last pair
    with the key is the one kept. *)
Fixpoint dict_get (d : list (value * value)) (k : value) : result value :=
  match d with
  | [] => Raise KeyError
  | (k', v) :: d' =>
      match dict_get d' k with
      | Ok w => Ok w
      | Raise _ => if value_eqb k' k then Ok v else Raise KeyError
      end
  end.

Fixpoint map_result {A B} (f : A -> result B) (l : list A) : result (list B) :=
  match l with
  | [] => Ok []
  | a :: l' =>
      (let* b := f a in let* bs := map_result f l' in Ok (b :: bs))%result
  end.

(** [replace_column_names] *)
Definition replace_column_names (new_column : value) : M unit :=
  ca <- gets chemical_annotation ;;
  d <- gets data ;;
  if negb (mem new_column (columns ca)) then raise ValueError
  else
    let not_annotated := filter (fun c => negb (mem c (index ca))) (columns d) in
    if negb (List.length not_annotated =? 0)%nat then raise ValueError
    else
      col <- lift (get_col ca new_column) ;;
      let renaming_dict := combine (index ca) (map snd col) in
      update_data (fun df =>
        (let* labels := map_result (dict_get renaming_dict) (columns df) in
         set_columns df labels)%result) ;;
      assign_metabolite_id_column new_column ;;
      update_chemical_annotation (fun df =>
        (let* r := reset_index df in set_index r new_column)%result) ;;
      _update_chemical_annotation.

(** Modelled from the spec: the class [MetaboTK] that the split methods
    instantiate is declared outside the sources at hand.  The spec has a
    partition produce one independent dataset of the same kind per group,
    so the constructor is that of [DatasetManager]. *)
Definition MetaboTK := init.

(** Running a method on an object and keeping the object on success. *)
Definition run_on (s : DatasetManager) (m : M unit) : result DatasetManager :=
  match m s with
  | (Ok _, s') => Ok s'
  | (Raise e, _) => Raise e
  end.

(** The body of the loop of [split_by_sample_column] for one group. *)
Definition sample_group_dataset (s : DatasetManager) (group : DataFrame)
  : result DatasetManager :=
  (let* tempdata := loc (data s) (index_name group) (index group) in
   let* tempclass := MetaboTK (_data_provider s) (_sample_id_column s)
                       (_metabolite_id_column s) in
   let* a_data := reset_index tempdata in
   let* a_chemical_annotation := reset_index (chemical_annotation s) in
   let* a_sample_metadata := reset_index group in
   run_on tempclass
     (import_tables a_data a_chemical_annotation a_sample_metadata ;;
      _update_chemical_annotation ;;
      _update_sample_metadata ;;
      _remove_metadata_from_data))%result.

(** [split_by_sample_column]: the dictionary as the list of its items, in
    the order the keys were inserted. *)
Definition split_by_sample_column (column : value) (s : DatasetManager)
  : result (list (value * DatasetManager)) :=
  (let* groups := groupby (sample_metadata s) column in
   map_result
     (fun g => let* t := sample_group_dataset s (snd g) in Ok (fst g, t))
     groups)%result.

(** The body of the loop of [split_by_metabolite_column] for one group. *)
Definition metabolite_group_dataset (s : DatasetManager) (group : DataFrame)
  : result DatasetManager :=
  (let* tempdata := select_cols (data s) (index group) in
   let* tempclass := MetaboTK (_data_provider s) (_sample_id_column s)
                       (_metabolite_id_column s) in
   let* a_data := reset_index tempdata in
   let* a_chemical_annotation := reset_index group in
   let* a_sample_metadata := reset_index (sample_metadata s) in
   run_on tempclass
     (import_tables a_data a_chemical_annotation a_sample_metadata ;;
      _update_chemical_annotation))%result.

(** [split_by_metabolite_column] *)
Definition split_by_metabolite_column (column : value) (s : DatasetManager)
  : result (list (value * DatasetManager)) :=
  (let* groups := groupby (chemical_annotation s) column in
   map_result
     (fun g => let* t := metabolite_group_dataset s (snd g) in Ok (fst g, t))
     groups)%result.

(** [drop_samples]: the value returned is [None] when [inplace]. *)
Definition drop_samples (samples_to_drop : ids_arg) (inplace : bool)
  : M (option DataFrame) :=
  let samples_to_drop := as_list samples_to_drop in
  d <- gets data ;;
  remaining <- lift (drop_rows d (map py_str samples_to_drop)) ;;
  if inplace then
    assign_data remaining ;;
    _update_sample_metadata ;;
    ret None
  else ret (Some remaining).

(** [drop_metabolites] *)
Definition drop_metabolites (metabolites_to_drop : ids_arg) (inplace : bool)
  : M (option DataFrame) :=
  let metabolites_to_drop := as_list metabolites_to_drop in
  d <- gets data ;;
  remaining <- lift (drop_cols d (map py_str metabolites_to_drop)) ;;
  if inplace then
    assign_data remaining ;;
    _update_chemical_annotation ;;
    ret None
  else ret (Some remaining).

(** [series.str.lower() == "xenobiotics"], cell by cell: a cell that is
    not text gives a missing value, which equals nothing.  The column is
    taken to be stored as an object column, as a text column of a parsed
    table is. *)
Definition is_xenobiotic (v : value) : bool :=
  match v with
  | VStr t => String.eqb (lower t) "xenobiotics"
  | _ => false
  end.

(** [drop_xenobiotic_metabolites] *)
Definition drop_xenobiotic_metabolites (inplace : bool) : M (option DataFrame) :=
  ca <- gets chemical_annotation ;;
  pathway <- lift (get_col ca (VStr "SUPER_PATHWAY")) ;;
  let xenobiotic_metabolites :=
    index (where_mask ca (map (fun p => is_xenobiotic (snd p)) pathway)) in
  if inplace then
    drop_metabolites (Many xenobiotic_metabolites) true ;;
    ret None
  else drop_metabolites (Many xenobiotic_metabolites) false.

(** [extract_metabolites] *)
Definition extract_metabolites (metabolites_to_extract : ids_arg) (s : DatasetManager)
  : result DataFrame :=
  let metabolites_to_extract := as_list metabolites_to_extract in
  (let* sub := select_cols (data s) (map py_str metabolites_to_extract) in
   merge (sample_metadata s) sub Inner)%result.

(** [extract_samples] *)
Definition extract_samples (samples_to_extract : ids_arg) (s : DatasetManager)
  : result DataFrame :=
  let samples_to_extract := as_list samples_to_extract in
  (let* sub := loc (sample_metadata s) (index_name (sample_metadata s))
                 samples_to_extract in
   merge sub (data s) Left)%result.

(** [extract_chemical_annotations] *)
Definition extract_chemical_annotations (metabolites_to_extract : ids_arg)
    (s : DatasetManager) : result DataFrame :=
  let metabolites_to_extract := as_list metabolites_to_extract in
  loc (chemical_annotation s) (index_name (chemical_annotation s))
    (map py_str metabolites_to_extract).

Close Scope manager_scope.

End Manager.

Export Manager.

(** ** The residual pipeline, [src/effects_models.py] *)

Module Effects.

(** The attributes of an [EffectsHandler] object. *)
Record EffectsHandler : Type := mkEH {
  data_manager : DatasetManager;
  formula : string;
  merged : DataFrame;
  residuals : DataFrame
}.

(** What a run leaves on disk: the directory made and the pickled models. *)
Record artifacts (model : Type) : Type := mkArtifacts {
  directories : list string;
  pickles : list (string * model)
}.

Arguments mkArtifacts {model} directories pickles.
Arguments directories {model} a.
Arguments pickles {model} a.

Definition text_of (v : value) : string :=
  match py_str v with VStr s => s | _ => "" end.

Section Regression.

(** The regression is an opaque capability: [ols f t] stands for
    [smf.ols(f, t)] followed by [fit()], and gives the residual series
    and the model object, or raises. *)
Variable model : Type.
Variable ols : string -> DataFrame -> result (Series * model).

(** [EffectsHandler.__init__] *)
Definition init_handler (dm : DatasetManager) (formula0 : string)
  : result EffectsHandler :=
  (let* m := merge_sample_metadata_data dm in
   Ok (mkEH dm formula0 m (fill_nan (data dm))))%result.

(** [fit_model] *)
Definition fit_model (h : EffectsHandler) (metabolite : value)
  : result (Series * model) :=
  ols ("Q('" ++ text_of metabolite ++ "') ~ " ++ formula h) (merged h).

(** The loop of [get_all_residuals] over the metabolites still to fit:
    the outcome, the residual table and the files as they stand when the
    loop ends or raises. *)
Fixpoint fit_all (h : EffectsHandler) (models_path : option string)
    (todo : list value) (res : DataFrame) (files : list (string * model))
  : result unit * DataFrame * list (string * model) :=
  match todo with
  | [] => (Ok tt, res, files)
  | metabolite :: rest =>
      match fit_model h metabolite with
      | Raise e => (Raise e, res, files)
      | Ok (r, mdl) =>
          match set_col_series res metabolite r with
          | Raise e => (Raise e, res, files)
          | Ok res' =>
              fit_all h models_path rest res'
                (if truthy models_path
                 then files ++ [((the_path models_path ++ "/" ++ text_of metabolite
                                    ++ ".pickle")%string, mdl)]
                 else files)
          end
      end
  end.

(** [get_all_residuals]: the value returned, the handler after the call
    and what was written. *)
Definition get_all_residuals (models_path : option string) (h : EffectsHandler)
  : result DataFrame * EffectsHandler * artifacts model :=
  let dirs := if truthy models_path then [the_path models_path] else [] in
  match fit_all h models_path (metabolites (data_manager h)) (residuals h) [] with
  | (out, res, files) =>
      ((let* _ := out in Ok res)%result,
       mkEH (data_manager h) (formula h) (merged h) res,
       mkArtifacts dirs files)
  end.

End Regression.

End Effects.

Export Effects.

(** ** Concrete tables used to run the methods *)

Module Examples.

Definition S (t : string) : value := VStr t.

Definition sid : value := S "PARENT_SAMPLE_NAME".
Definition mid : value := S "CHEM_ID".

(** A fresh object, [DatasetManager()]. *)
Definition fresh : DatasetManager :=
  mkDM "metabolon" sid empty_frame [] mid empty_frame [] empty_frame.

(** Three samples in two batches, two metabolites. *)
Definition meta3 : DataFrame :=
  mkDF None [sid; S "batch"]
    [(VInt 0, [S "S1"; S "A"]); (VInt 1, [S "S2"; S "A"]); (VInt 2, [S "S3"; S "B"])].

Definition chem2 : DataFrame :=
  mkDF None [mid; S "SUPER_PATHWAY"; S "NAME"]
    [(VInt 0, [S "M1"; S "Lipid"; S "alpha"]);
     (VInt 1, [S "M2"; S "Xenobiotics"; S "beta"])].

Definition data3 : DataFrame :=
  mkDF None [sid; S "M1"; S "M2"]
    [(VInt 0, [S "S1"; VInt 10; VInt 1]);
     (VInt 1, [S "S2"; VInt 12; VInt 2]);
     (VInt 2, [S "S3"; VInt 11; VInt 3])].

Definition loaded3 : DatasetManager := snd (import_tables data3 chem2 meta3 fresh).

(** An annotation table without the identifier column. *)
Definition chem_no_id : DataFrame :=
  mkDF None [S "SUPER_PATHWAY"; S "NAME"] [(VInt 0, [S "Lipid"; S "alpha"])].

(** An annotation table with its header and no row. *)
Definition chem_empty : DataFrame := mkDF None [mid; S "SUPER_PATHWAY"] [].

Definition loaded_no_annotation : DatasetManager :=
  snd (import_tables data3 chem_empty meta3 fresh).

(** An abundance table with its header and no row. *)
Definition data_empty : DataFrame := mkDF None [sid; S "M1"; S "M2"] [].

Definition loaded_no_data : DatasetManager :=
  snd (import_tables data_empty chem2 meta3 fresh).

(** An abundance table that lacks the third sample. *)
Definition data2 : DataFrame :=
  mkDF None [sid; S "M1"; S "M2"]
    [(VInt 0, [S "S1"; VInt 10; VInt 1]); (VInt 1, [S "S2"; VInt 12; VInt 2])].

Definition loaded_two_of_three : DatasetManager :=
  snd (import_tables data2 chem2 meta3 fresh).

(** Sample metadata that lacks the third sample. *)
Definition meta2 : DataFrame :=
  mkDF None [sid; S "batch"]
    [(VInt 0, [S "S1"; S "A"]); (VInt 1, [S "S2"; S "B"])].

Definition loaded_extra_row : DatasetManager :=
  snd (import_tables data3 chem2 meta2 fresh).

(** A stand-in for the regression: a residual of zero for every row of
    the table it is given. *)
Definition zero_fit (f : string) (t : DataFrame) : result (Series * unit) :=
  Ok (map (fun r => (fst r, VInt 0)) (rows t), tt).

(** The pipeline configured on [loaded_extra_row]. *)
Definition handler_extra_row : EffectsHandler :=
  match init_handler loaded_extra_row "C(batch)" with
  | Ok h => h
  | Raise _ => mkEH loaded_extra_row "" empty_frame empty_frame
  end.



(** Sample metadata in which the batch of the second sample is missing. *)
Definition meta_nan : DataFrame :=
  mkDF None [sid; S "batch"]
    [(VInt 0, [S "S1"; S "A"]); (VInt 1, [S "S2"; VNaN])].

Definition loaded_nan : DatasetManager :=
  snd (import_tables data2 chem2 meta_nan fresh).

(** The split of [loaded_nan] by batch. *)
Definition nan_family : list (value * DatasetManager) :=
  match split_by_sample_column (S "batch") loaded_nan with
  | Ok family => family
  | Raise _ => []
  end.

(** An abundance table with a metadata column and without the second
    metabolite. *)
Definition data_unmatched : DataFrame :=
  mkDF None [sid; S "batch"; S "M1"]
    [(VInt 0, [S "S1"; S "A"; VInt 10]); (VInt 1, [S "S2"; S "A"; VInt 12])].

(** The pipeline configured on [loaded3]. *)
Definition handler3 : EffectsHandler :=
  match init_handler loaded3 "C(batch)" with
  | Ok h => h
  | Raise _ => mkEH loaded3 "" empty_frame empty_frame
  end.

(** A stand-in for a regression that cannot fit the second metabolite. *)
Definition fit_but_M2 (f : string) (t : DataFrame) : result (Series * unit) :=
  if String.prefix "Q('M2')" f then Raise ValueError else zero_fit f t.

End Examples.

(** ** Statements of the specification that the code does not meet as written *)

Module Stated.

(** "Construction is all-or-nothing": a failed import from a fresh object
    leaves the three tables empty. *)
Definition construction_all_or_nothing : Prop :=
  forall provider sample_id metabolite_id s0 d ca sm e s',
    init provider sample_id metabolite_id = Ok s0 ->
    import_tables d ca sm s0 = (Raise e, s') ->
    sample_metadata s' = empty_frame /\
    chemical_annotation s' = empty_frame /\
    data s' = empty_frame.

(** "Extracting samples never fails on an absent identifier": after an
    import that went through, [extract_samples] returns a table for any
    list of identifiers. *)
Definition extract_samples_never_fails : Prop :=
  forall provider sample_id metabolite_id s0 d ca sm s ids,
    init provider sample_id metabolite_id = Ok s0 ->
    import_tables d ca sm s0 = (Ok tt, s) ->
    exists df, extract_samples ids s = Ok df.



(** "The sample sets of the partitions are pairwise disjoint, their union
    is the parent's sample set, and their abundance tables put one after
    the other are the parent's": after an import that went through, for
    any column of the sample metadata. *)
Definition split_partitions_samples : Prop :=
  forall provider sample_id metabolite_id s0 d ca sm s column family,
    init provider sample_id metabolite_id = Ok s0 ->
    import_tables d ca sm s0 = (Ok tt, s) ->
    In column (columns (sample_metadata s)) ->
    split_by_sample_column column s = Ok family ->
    (forall x, In x (samples s) ->
       exists k m, In (k, m) family /\ In x (samples m)) /\
    (forall k1 m1 k2 m2 x,
       In (k1, m1) family -> In (k2, m2) family ->
       In x (samples m1) -> In x (samples m2) -> k1 = k2) /\
    flat_map (fun km => rows (data (snd km))) family = rows (data s).

End Stated.

(** ** What a method leaves alone, and when it is sure to raise *)

Module Effect.

(** [keeps f m]: whatever [m] does, the attribute read by [f] is the same
    after the call, also when the call raises. *)
Definition keeps {A B} (f : DatasetManager -> B) (m : M A) : Prop :=
  forall s, f (snd (m s)) = f s.

(** [fails m]: the call raises from every state. *)
Definition fails {A} (m : M A) : Prop :=
  forall s, exists e, fst (m s) = Raise e.

End Effect.

Export Effect.

(** ** Consistency of the three tables *)

Module Consistency.






(** The cells of column [c], in row order. *)
Definition column_cells (c : value) (ca : DataFrame) : list value :=
  map (fun r => hd VNaN (pick c (columns ca) (snd r))) (rows ca).



End Consistency.

Export Consistency.

(** ** The residual table *)

Module Residual.

(** Every cell of the row is the missing marker. *)
Definition all_missing (r : row) : Prop := Forall (fun v => v = VNaN) (snd r).

(** The residual table [res] has the shape of the abundance table of
    [dm], and the samples that the merged view [m] leaves out hold
    nothing but the missing marker. *)
Definition shaped_like (dm : DatasetManager) (m res : DataFrame) : Prop :=
  index res = index (data dm) /\
  columns res = columns (data dm) /\
  forall r, In r (rows res) -> ~ In (fst r) (index m) -> all_missing r.

End Residual.

Export Residual.

(** ** Datasets reached through the public operations *)

Module Reach.

(** Every row is as wide as the header. *)
Definition rect (df : DataFrame) : Prop :=
  Forall (fun r => List.length (snd r) = List.length (columns df)) (rows df).

(** The abundance table once its column labels went through [str]. *)
Definition coerced_header (d : DataFrame) : DataFrame :=
  mkDF (index_name d) (map py_str (columns d)) (rows d).




End Reach.

Export Reach.

(** ** The members of a split by a sample column *)

Module Partition.







End Partition.

Export Partition.

(** * Properties *)

(** ** Labels and membership *)

Lemma value_eqb_eq (a b : value) : value_eqb a b = true <-> a = b.
Proof.
  unfold value_eqb. destruct (value_eq_dec a b); split; congruence.
Qed.

Lemma value_eqb_refl (a : value) : value_eqb a a = true.
Proof. now apply value_eqb_eq. Qed.

Lemma value_eqb_neq (a b : value) : value_eqb a b = false <-> a <> b.
Proof.
  unfold value_eqb. destruct (value_eq_dec a b); split; congruence.
Qed.


Lemma mem_In (x : value) (l : list value) : mem x l = true <-> In x l.
Proof.
  unfold mem. rewrite existsb_exists. split.
  - intros [y [Hy E]]. apply value_eqb_eq in E. now subst.
  - intros H. exists x. split; [assumption | apply value_eqb_refl].
Qed.

Lemma mem_not_In (x : value) (l : list value) : mem x l = false <-> ~ In x l.
Proof.
  rewrite <- mem_In. destruct (mem x l); split; congruence.
Qed.

Lemma forallb_mem_incl (l m : list value) :
  forallb (fun x => mem x m) l = true <-> incl l m.
Proof.
  rewrite forallb_forall. unfold incl. split; intros H x Hx.
  - apply mem_In. now apply H.
  - apply mem_In. now apply H.
Qed.

Lemma forallb_mem_missing (l m : list value) :
  (exists x, In x l /\ ~ In x m) -> forallb (fun x => mem x m) l = false.
Proof.
  intros [x [Hx Hn]]. destruct (forallb _ l) eqn:E; [| reflexivity].
  apply forallb_mem_incl in E. exfalso. apply Hn. now apply E.
Qed.

Lemma py_str_is_str (v : value) : is_str v -> py_str v = v.
Proof. destruct v; simpl; intros H; now try contradiction. Qed.


(** ** C7: a drop that names an absent identifier *)

(** C7.  When the list given to [drop_samples] holds an identifier that
    is not a row label of the abundance table, the call raises and the
    object is as it was; the same for [drop_metabolites] and the column
    labels.  Nothing is removed, with [inplace] or without. *)
Theorem drop_absent_identifier_fails_whole (s : DatasetManager) (ids : ids_arg)
    (inplace : bool) :
  ((exists i, In i (as_list ids) /\ ~ In (py_str i) (index (data s))) ->
   drop_samples ids inplace s = (Raise KeyError, s)) /\
  ((exists i, In i (as_list ids) /\ ~ In (py_str i) (columns (data s))) ->
   drop_metabolites ids inplace s = (Raise KeyError, s)).
Proof.
  split; intros [i [Hi Hn]].
  - unfold drop_samples, bind, gets, lift, drop_rows.
    rewrite forallb_mem_missing; [reflexivity |].
    exists (py_str i). split; [now apply in_map | assumption].
  - unfold drop_metabolites, bind, gets, lift, drop_cols.
    rewrite forallb_mem_missing; [reflexivity |].
    exists (py_str i). split; [now apply in_map | assumption].
Qed.

Lemma drop_absent_identifier_fails_whole_witness :
  drop_samples (Many [Examples.S "S1"; Examples.S "S9"]) true Examples.loaded3
    = (Raise KeyError, Examples.loaded3) /\
  drop_metabolites (Many [Examples.S "M2"; VInt 7]) true Examples.loaded3
    = (Raise KeyError, Examples.loaded3).
Proof.
  split.
  - apply (proj1 (drop_absent_identifier_fails_whole Examples.loaded3
                    (Many [Examples.S "S1"; Examples.S "S9"]) true)).
    exists (Examples.S "S9"). split; [simpl; auto |].
    vm_compute. intros H. repeat (destruct H as [H | H]; [discriminate |]). exact H.
  - apply (proj2 (drop_absent_identifier_fails_whole Examples.loaded3
                    (Many [Examples.S "M2"; VInt 7]) true)).
    exists (VInt 7). split; [simpl; auto |].
    vm_compute. intros H. repeat (destruct H as [H | H]; [discriminate |]). exact H.
Defined.

(** ** C9: what [save] looks at before it writes *)

Lemma save_fails_iff_data_empty (p1 p2 p3 : option string) (s : DatasetManager) :
  save p1 p2 p3 s = Raise ValueError <-> len (data s) = 0%nat.
Proof.
  unfold save. destruct (len (data s) =? 0)%nat eqn:E.
  - apply Nat.eqb_eq in E. tauto.
  - apply Nat.eqb_neq in E. split; [discriminate | contradiction].
Qed.

(** C9.  [save] tests the abundance table only.  With an annotation table
    of no row and an abundance table of three rows the annotation is
    written, empty, without an error; with an abundance table of no row
    the sample metadata, which has three rows, is refused. *)
Theorem save_tests_only_the_abundance_table :
  fst (import_tables Examples.data3 Examples.chem_empty Examples.meta3 Examples.fresh)
    = Ok tt /\
  len (chemical_annotation Examples.loaded_no_annotation) = 0%nat /\
  save None (Some "annotation.tsv") None Examples.loaded_no_annotation
    = Ok [("annotation.tsv", chemical_annotation Examples.loaded_no_annotation)] /\
  fst (import_tables Examples.data_empty Examples.chem2 Examples.meta3 Examples.fresh)
    = Ok tt /\
  len (sample_metadata Examples.loaded_no_data) = 3%nat /\
  save None None (Some "samples.tsv") Examples.loaded_no_data = Raise ValueError.
Proof. vm_compute. repeat split. Qed.

(** ** What the steps of a method keep *)

Lemma keeps_bind {A B C} (f : DatasetManager -> C) (m : M A) (k : A -> M B) :
  keeps f m -> (forall a, keeps f (k a)) -> keeps f (bind m k).
Proof.
  intros Hm Hk s. unfold bind. specialize (Hm s).
  destruct (m s) as [[a | e] s']; simpl in *.
  - now rewrite Hk.
  - assumption.
Qed.

Lemma keeps_except {A C} (f : DatasetManager -> C) (m h : M A) :
  keeps f m -> keeps f h -> keeps f (except_ValueError m h).
Proof.
  intros Hm Hh s. unfold except_ValueError. specialize (Hm s).
  destruct (m s) as [[a | e] s']; simpl in *; [assumption |].
  destruct e; simpl; try assumption. now rewrite Hh.
Qed.

Lemma keeps_ret {A C} (f : DatasetManager -> C) (a : A) : keeps f (ret a).
Proof. intros s. reflexivity. Qed.

Lemma keeps_raise {A C} (f : DatasetManager -> C) (e : exn) : keeps f (@raise A e).
Proof. intros s. reflexivity. Qed.

Lemma keeps_lift {A C} (f : DatasetManager -> C) (r : result A) : keeps f (lift r).
Proof. intros s. reflexivity. Qed.

Lemma keeps_gets {A C} (f : DatasetManager -> C) (g : DatasetManager -> A) :
  keeps f (gets g).
Proof. intros s. reflexivity. Qed.

Lemma keeps_if {A C} (f : DatasetManager -> C) (b : bool) (m1 m2 : M A) :
  keeps f m1 -> keeps f m2 -> keeps f (if b then m1 else m2).
Proof. now destruct b. Qed.

Ltac keeps_steps :=
  repeat first
    [ apply keeps_bind; [| intros ?]
    | apply keeps_except
    | apply keeps_if
    | apply keeps_ret | apply keeps_raise | apply keeps_lift | apply keeps_gets
    | (intros ?; reflexivity) ].

Lemma fails_raise {A} (e : exn) : fails (@raise A e).
Proof. intros s. now exists e. Qed.

Lemma fails_bind_r {A B} (m : M A) (k : A -> M B) :
  (forall a, fails (k a)) -> fails (bind m k).
Proof.
  intros Hk s. unfold bind. destruct (m s) as [[a | e] s']; simpl.
  - apply Hk.
  - now exists e.
Qed.

Lemma fails_except {A} (m h : M A) : fails m -> fails h -> fails (except_ValueError m h).
Proof.
  intros Hm Hh s. unfold except_ValueError. destruct (Hm s) as [e He].
  destruct (m s) as [[a | e'] s']; simpl in *; [discriminate |].
  destruct e'; try (eexists; reflexivity). apply Hh.
Qed.

Lemma fails_bind_l {A B} (m : M A) (k : A -> M B) : fails m -> fails (bind m k).
Proof.
  intros Hm s. unfold bind. destruct (Hm s) as [e He].
  destruct (m s) as [[a | e'] s']; simpl in *; [discriminate |]. now exists e'.
Qed.

(** ** C3: what a failed construction leaves behind *)

Lemma init_tables_empty provider sample_id metabolite_id s0 :
  init provider sample_id metabolite_id = Ok s0 ->
  sample_metadata s0 = empty_frame /\ chemical_annotation s0 = empty_frame /\
  data s0 = empty_frame /\ samples s0 = [] /\ metabolites s0 = [] /\
  _sample_id_column s0 = sample_id /\ _metabolite_id_column s0 = metabolite_id.
Proof.
  unfold init. destruct (String.eqb _ _); [| discriminate].
  intros H. injection H as <-. simpl. tauto.
Qed.

(** The first half of [_setup_data], up to the test on the annotation. *)
Lemma setup_samples_keeps_annotation sm d sid0 :
  keeps chemical_annotation
    (if mem sid0 (columns d) && mem sid0 (columns sm)
     then
       bind (assign_sample_metadata sm) (fun _ =>
       bind (update_sample_metadata (astype_str_col sid0)) (fun _ =>
       bind (update_sample_metadata (fun df => set_index df sid0)) (fun _ =>
       bind (assign_data d) (fun _ =>
       bind (update_data (fun df => set_columns df (map py_str (columns df)))) (fun _ =>
       bind (update_data (fun df => set_index df sid0)) (fun _ =>
       bind (gets sample_metadata) (fun sm' => assign_samples (index sm'))))))))
     else raise ValueError).
Proof.
  unfold update_sample_metadata, update_data. keeps_steps.
Qed.

(** The statement of the specification fails: the annotation table below
    lacks the identifier column, the import raises, and the sample
    metadata and the abundance table are already in place. *)
Lemma construction_not_all_or_nothing : ~ Stated.construction_all_or_nothing.
Proof.
  intros H.
  destruct (H "metabolon" Examples.sid Examples.mid Examples.fresh
              Examples.data3 Examples.chem_no_id Examples.meta3 ValueError
              (snd (import_tables Examples.data3 Examples.chem_no_id Examples.meta3
                      Examples.fresh)))
    as [Hsm _].
  - reflexivity.
  - vm_compute. reflexivity.
  - vm_compute in Hsm. discriminate.
Qed.


Ltac proj :=
  cbn beta iota zeta delta
    [fst snd _data_provider _sample_id_column sample_metadata samples
       _metabolite_id_column chemical_annotation metabolites data].

(** C3, as the code has it.  From a fresh object, an import whose
    abundance table or sample metadata lacks the sample identifier column
    raises [ValueError] and leaves the object untouched, its three tables
    empty.  An import whose annotation table lacks the metabolite
    identifier column raises as well and leaves the annotation table and
    the metabolite list empty; what was assigned to the sample metadata
    and the abundance table before that test is not taken back. *)
Theorem failed_construction_state provider sample_id metabolite_id s0 d ca sm :
  init provider sample_id metabolite_id = Ok s0 ->
  (mem sample_id (columns d) && mem sample_id (columns sm) = false ->
   import_tables d ca sm s0 = (Raise ValueError, s0) /\
   sample_metadata s0 = empty_frame /\ chemical_annotation s0 = empty_frame /\
   data s0 = empty_frame) /\
  (mem metabolite_id (columns ca) = false ->
   (exists e, fst (import_tables d ca sm s0) = Raise e) /\
   chemical_annotation (snd (import_tables d ca sm s0)) = empty_frame /\
   metabolites (snd (import_tables d ca sm s0)) = []).
Proof.
  intros Hinit.
  destruct (init_tables_empty _ _ _ _ Hinit)
    as (Hsm & Hca & Hd & _ & Hms & Hsid & Hmid).
  split; intros Hno.
  - split; [| tauto].
    unfold import_tables, parser_import_tables, _setup_data,
      except_ValueError, bind, gets, raise, parse_input.
    proj. rewrite Hsid, Hno. reflexivity.
  - unfold import_tables, parser_import_tables, _setup_data,
      except_ValueError, bind, gets, raise, update_sample_metadata, update_data,
      assign_sample_metadata, assign_data, assign_samples, bind, gets, lift,
      parse_input.
    proj.
    destruct (mem (_sample_id_column s0) (columns d)
              && mem (_sample_id_column s0) (columns sm)); proj; [| eauto].
    destruct (astype_str_col (_sample_id_column s0) sm) as [sm1 | e1]; proj;
      [| destruct e1; proj; eauto].
    destruct (set_index sm1 (_sample_id_column s0)) as [sm2 | e2]; proj;
      [| destruct e2; proj; eauto].
    destruct (set_columns d (map py_str (columns d))) as [d1 | e3]; proj;
      [| destruct e3; proj; eauto].
    destruct (set_index d1 (_sample_id_column s0)) as [d2 | e4]; proj;
      [| destruct e4; proj; eauto].
    rewrite Hmid, Hno. proj. eauto.
Qed.

Lemma failed_construction_state_witness :
  (import_tables Examples.data3 Examples.chem2 Examples.chem_no_id Examples.fresh
     = (Raise ValueError, Examples.fresh) /\
   sample_metadata Examples.fresh = empty_frame /\
   chemical_annotation Examples.fresh = empty_frame /\
   data Examples.fresh = empty_frame) /\
  ((exists e, fst (import_tables Examples.data3 Examples.chem_no_id Examples.meta3
                     Examples.fresh) = Raise e) /\
   chemical_annotation (snd (import_tables Examples.data3 Examples.chem_no_id
                               Examples.meta3 Examples.fresh)) = empty_frame /\
   metabolites (snd (import_tables Examples.data3 Examples.chem_no_id
                       Examples.meta3 Examples.fresh)) = []).
Proof.
  split.
  - apply (proj1 (failed_construction_state "metabolon" Examples.sid Examples.mid
                    Examples.fresh Examples.data3 Examples.chem2 Examples.chem_no_id
                    eq_refl)).
    reflexivity.
  - apply (proj2 (failed_construction_state "metabolon" Examples.sid Examples.mid
                    Examples.fresh Examples.data3 Examples.chem_no_id Examples.meta3
                    eq_refl)).
    reflexivity.
Defined.
(** ** Joining on the index *)

Lemma rows_labelled_In (l : value) (rs : list row) (r : row) :
  In r (rows_labelled l rs) <-> In r rs /\ fst r = l.
Proof.
  unfold rows_labelled. rewrite filter_In, value_eqb_eq. tauto.
Qed.

Lemma rows_labelled_absent (l : value) (rs : list row) :
  ~ In l (map fst rs) -> rows_labelled l rs = [].
Proof.
  intros H. destruct (rows_labelled l rs) as [| r t] eqn:E; [reflexivity |].
  exfalso. apply H. assert (Hr : In r (rows_labelled l rs)) by (rewrite E; now left).
  apply rows_labelled_In in Hr. destruct Hr as [Hr <-]. now apply in_map.
Qed.

Lemma rows_labelled_present (l : value) (rs : list row) :
  In l (map fst rs) -> rows_labelled l rs <> [].
Proof.
  intros H E. apply in_map_iff in H. destruct H as [r [<- Hr]].
  assert (Hin : In r (rows_labelled (fst r) rs)) by now apply rows_labelled_In.
  rewrite E in Hin. contradiction.
Qed.

Lemma no_overlap (cl cr : list value) :
  (forall c, In c cl -> ~ In c cr) -> filter (fun c => mem c cr) cl = [].
Proof.
  intros H. induction cl as [| c cl IH]; simpl; [reflexivity |].
  rewrite (proj2 (mem_not_In c cr)) by (apply H; now left).
  apply IH. intros x Hx. apply H. now right.
Qed.

Lemma suffixed_nil (sfx : string) (l : list value) : map (suffixed sfx []) l = l.
Proof. induction l as [| c l IH]; simpl; [reflexivity |]. now rewrite IH. Qed.

Lemma suffix_clash_same (l : list value) : suffix_clash l l = false.
Proof.
  unfold suffix_clash. generalize (duplicated [] l). intros bs.
  induction bs as [| b bs IH]; simpl; [reflexivity |].
  rewrite IH. now destruct b.
Qed.

(** With no column label on both sides the merge keeps the labels. *)
Lemma merge_disjoint (left right : DataFrame) (h : how) :
  (forall c, In c (columns left) -> ~ In c (columns right)) ->
  exists name,
    merge left right h =
    Ok (mkDF name (columns left ++ columns right)
          (join_rows h (List.length (columns right)) (rows left) (rows right))).
Proof.
  intros H. unfold merge. rewrite (no_overlap _ _ H), !suffixed_nil, !suffix_clash_same.
  simpl. eexists. reflexivity.
Qed.

Lemma extract_samples_can_fail : ~ Stated.extract_samples_never_fails.
Proof.
  intros H.
  assert (E : import_tables Examples.data3 Examples.chem2 Examples.meta3 Examples.fresh
              = (Ok tt, Examples.loaded3)) by (vm_compute; reflexivity).
  destruct (H "metabolon" Examples.sid Examples.mid Examples.fresh Examples.data3
              Examples.chem2 Examples.meta3 Examples.loaded3
              (One (Examples.S "S9")) eq_refl E) as [df Hdf].
  vm_compute in Hdf. discriminate.
Qed.

(** C4, as the code has it.  [extract_samples] raises when a requested
    identifier is not in the index of the sample metadata.  When all are,
    and no column label is shared by the two tables, it returns a table
    in which every requested identifier that the abundance table does not
    hold has a row, made of its sample metadata followed by a missing
    value under every abundance column.  [extract_metabolites] raises
    whenever a requested identifier is not a column of the abundance
    table. *)
Theorem extract_samples_left_join_extract_metabolites_strict
    (s : DatasetManager) (ids : ids_arg) :
  ((exists i, In i (as_list ids) /\ ~ In i (index (sample_metadata s))) ->
   extract_samples ids s = Raise KeyError) /\
  (incl (as_list ids) (index (sample_metadata s)) ->
   (forall c, In c (columns (sample_metadata s)) -> ~ In c (columns (data s))) ->
   exists df,
     extract_samples ids s = Ok df /\
     columns df = columns (sample_metadata s) ++ columns (data s) /\
     forall i, In i (as_list ids) -> ~ In i (index (data s)) ->
       In i (index df) /\
       forall r, In r (rows df) -> fst r = i ->
         exists cells, In (i, cells) (rows (sample_metadata s)) /\
           snd r = cells ++ repeat VNaN (List.length (columns (data s)))) /\
  ((exists i, In i (as_list ids) /\ ~ In (py_str i) (columns (data s))) ->
   extract_metabolites ids s = Raise KeyError).
Proof.
  split; [| split].
  - intros Hmiss. unfold extract_samples, loc. cbv zeta.
    now rewrite (forallb_mem_missing _ _ Hmiss).
  - intros Hall Hdisj. unfold extract_samples, loc. cbv zeta.
    rewrite (proj2 (forallb_mem_incl _ _) Hall). cbn [rbind].
    destruct (merge_disjoint
                (mkDF (index_name (sample_metadata s)) (columns (sample_metadata s))
                   (flat_map (fun l => rows_labelled l (rows (sample_metadata s)))
                      (as_list ids)))
                (data s) Left Hdisj) as [name Hm].
    rewrite Hm. eexists. split; [reflexivity |]. split; [reflexivity |].
    simpl. intros i Hi Habs. split.
    + assert (Hin : In i (index (sample_metadata s))) by now apply Hall.
      apply in_map_iff in Hin. destruct Hin as [lr [Hfst Hlr]].
      apply in_map_iff. exists (i, snd lr ++ repeat VNaN (List.length (columns (data s)))).
      split; [reflexivity |]. unfold join_rows. apply in_flat_map.
      exists lr. split.
      * apply in_flat_map. exists i. split; [assumption |].
        now apply rows_labelled_In.
      * rewrite Hfst. rewrite (rows_labelled_absent i (rows (data s)) Habs).
        now left.
    + intros r Hr Hri. unfold join_rows in Hr. apply in_flat_map in Hr.
      destruct Hr as [lr [Hlr Hr]]. apply in_flat_map in Hlr.
      destruct Hlr as [l [Hl Hlr]]. apply rows_labelled_In in Hlr.
      destruct Hlr as [Hlr Hfst].
      destruct (rows_labelled (fst lr) (rows (data s))) as [| m ms] eqn:E.
      * destruct Hr as [<- | []]. simpl in *. exists (snd lr). split; [| reflexivity].
        rewrite <- Hri. now destruct lr.
      * exfalso. apply Habs.
        assert (Hin : In m (rows_labelled (fst lr) (rows (data s)))) by (rewrite E; now left).
        apply rows_labelled_In in Hin. destruct Hin as [Hin Hmf].
        apply in_map_iff in Hr. destruct Hr as [rr [<- _]]. simpl in Hri.
        unfold index. apply in_map_iff. exists m. split; [congruence | assumption].
  - intros Hmiss. unfold extract_metabolites, select_cols. cbv zeta.
    rewrite forallb_mem_missing; [reflexivity |].
    destruct Hmiss as [i [Hi Hn]]. exists (py_str i). split; [now apply in_map | assumption].
Qed.

Lemma extract_samples_left_join_extract_metabolites_strict_witness :
  extract_samples (One (Examples.S "S9")) Examples.loaded_two_of_three = Raise KeyError /\
  (exists df,
     extract_samples (Many [Examples.S "S3"; Examples.S "S1"])
       Examples.loaded_two_of_three = Ok df /\
     In (Examples.S "S3", [Examples.S "B"; VNaN; VNaN]) (rows df)) /\
  extract_metabolites (Many [Examples.S "M1"; Examples.S "M7"])
    Examples.loaded_two_of_three = Raise KeyError.
Proof.
  split; [| split].
  - apply (proj1 (extract_samples_left_join_extract_metabolites_strict
                    Examples.loaded_two_of_three (One (Examples.S "S9")))).
    exists (Examples.S "S9"). split; [now left |].
    vm_compute. intros H. repeat (destruct H as [H | H]; [discriminate |]). exact H.
  - destruct (proj1 (proj2 (extract_samples_left_join_extract_metabolites_strict
                    Examples.loaded_two_of_three
                    (Many [Examples.S "S3"; Examples.S "S1"]))))
      as [df [Hdf _]].
    + vm_compute. intros a H.
      repeat (destruct H as [H | H]; [subst a; auto 6 |]). contradiction.
    + vm_compute. intros c H.
      destruct H as [H | []]. subst c. intros G.
      repeat (destruct G as [G | G]; [discriminate |]). exact G.
    + exists df. split; [exact Hdf |].
      vm_compute in Hdf. injection Hdf as <-. simpl. auto.
  - apply (proj2 (proj2 (extract_samples_left_join_extract_metabolites_strict
                    Examples.loaded_two_of_three
                    (Many [Examples.S "M1"; Examples.S "M7"])))).
    exists (Examples.S "M7"). split; [simpl; auto |].
    vm_compute. intros H. repeat (destruct H as [H | H]; [discriminate |]). exact H.
Defined.

(** ** Selecting and dropping by label *)


Lemma flat_map_ext_In {A B} (f g : A -> list B) (l : list A) :
  (forall a, In a l -> f a = g a) -> flat_map f l = flat_map g l.
Proof.
  induction l as [| a l IH]; simpl; intros H; [reflexivity |].
  rewrite (H a) by now left. f_equal. apply IH. intros b Hb. apply H. now right.
Qed.






Lemma NoDup_filter {A} (f : A -> bool) (l : list A) : NoDup l -> NoDup (filter f l).
Proof.
  induction 1 as [| a l Hn Hnd IH]; simpl; [constructor |].
  destruct (f a); [constructor |]; try assumption.
  intros H. apply Hn. apply filter_In in H. tauto.
Qed.


(** ** Dropping features from a consistent dataset *)



(** ** C6: dropping features in two steps or in one *)





Ltac in_concrete :=
  vm_compute;
  repeat match goal with
         | |- forall _, _ => intro
         | H : _ \/ _ |- _ => destruct H
         | H : False |- _ => destruct H
         | H : _ = _ |- _ => first [discriminate H | subst]
         end;
  try tauto.


(** ** C10: dropping the xenobiotic features *)

Lemma occurrences_once (c : value) (l : list value) :
  NoDup l -> In c l -> occurrences c l = [c].
Proof.
  unfold occurrences. induction 1 as [| x l Hn Hnd IH]; intros Hin; [contradiction |].
  simpl. destruct Hin as [-> | Hin].
  - rewrite value_eqb_refl. f_equal.
    destruct (filter (fun x => value_eqb x c) l) as [| y t] eqn:E; [reflexivity |].
    exfalso. apply Hn. assert (Hy : In y (y :: t)) by now left.
    rewrite <- E in Hy. apply filter_In in Hy. destruct Hy as [Hy Hyc].
    apply value_eqb_eq in Hyc. now subst.
  - rewrite (proj2 (value_eqb_neq x c)); [now apply IH |].
    intros ->. contradiction.
Qed.








Ltac nodup_concrete :=
  vm_compute; repeat constructor; simpl; intuition discriminate.


(** ** Re-keying the features *)


Lemma dict_get_raise (d : list (value * value)) (k : value) (e : exn) :
  dict_get d k = Raise e -> e = KeyError.
Proof.
  induction d as [| [k' v] d IH]; simpl.
  - congruence.
  - destruct (dict_get d k); [congruence |]. destruct (value_eqb k' k); congruence.
Qed.








Lemma occurrences_absent (c : value) (l : list value) :
  ~ In c l -> occurrences c l = [].
Proof.
  intros H. unfold occurrences. induction l as [| x l IH]; [reflexivity |]. simpl.
  rewrite (proj2 (value_eqb_neq x c)).
  - apply IH. intros G. apply H. now right.
  - intros ->. apply H. now left.
Qed.



Lemma occurrences_In (c : value) (l : list value) :
  occurrences c l = [c] -> In c l.
Proof.
  intros H. assert (G : In c (occurrences c l)) by (rewrite H; now left).
  unfold occurrences in G. apply filter_In in G. tauto.
Qed.

Lemma get_col_single (df : DataFrame) (c : value) :
  occurrences c (columns df) = [c] ->
  get_col df c
  = Ok (map (fun r => (fst r, hd VNaN (pick c (columns df) (snd r)))) (rows df)).
Proof. intros H. unfold get_col. now rewrite H. Qed.








(** ** C5: renaming the features and renaming them back *)



(** ** C8: the residual table *)

Lemma labels_eqb_eq (l m : list value) : labels_eqb l m = true -> l = m.
Proof.
  revert m. induction l as [| x l IH]; intros [| y m] H; simpl in H;
    try discriminate; [reflexivity |].
  apply andb_true_iff in H. destruct H as [H1 H2].
  apply value_eqb_eq in H1. subst. f_equal. now apply IH.
Qed.

Lemma series_get_absent (s : Series) (l : value) :
  ~ In l (map fst s) -> series_get s l = VNaN.
Proof.
  intros H. unfold series_get.
  destruct (find (fun p => value_eqb (fst p) l) s) as [p |] eqn:E; [| reflexivity].
  exfalso. apply find_some in E. destruct E as [Hp E]. apply value_eqb_eq in E.
  apply H. rewrite <- E. now apply in_map.
Qed.

Lemma put_all_missing (c v : value) (cols cells : list value) :
  v = VNaN -> Forall (fun x => x = VNaN) cells ->
  Forall (fun x => x = VNaN) (put c v cols cells).
Proof.
  intros Hv H. revert cols. induction H as [| w ws Hw _ IH]; intros [| x xs]; simpl;
    try constructor.
  - now destruct (value_eqb x c).
  - apply IH.
Qed.

Lemma zip_with_index (f : row -> value -> list value) (rs : list row) (vs : list value) :
  List.length vs = List.length rs ->
  map fst (zip_with (fun r v => (fst r, f r v)) rs vs) = map fst rs.
Proof.
  revert vs. induction rs as [| r rs IH]; intros [| v vs] H; try discriminate;
    [reflexivity |].
  simpl. f_equal. apply IH. now injection H.
Qed.

(** Overwriting a column with cells that are missing wherever the row is
    left out keeps the left-out rows all missing. *)
Lemma zip_put_keeps_missing (out : value -> Prop) (c : value) (cols : list value)
    (rs : list row) (vs : list value) :
  Forall2 (fun r v => out (fst r) -> v = VNaN) rs vs ->
  (forall r, In r rs -> out (fst r) -> all_missing r) ->
  forall r, In r (zip_with (fun r v => (fst r, put c v cols (snd r))) rs vs) ->
    out (fst r) -> all_missing r.
Proof.
  induction 1 as [| r0 v0 rs vs H0 _ IH]; intros Hrs r Hr Hout; [contradiction |].
  simpl in Hr. destruct Hr as [<- | Hr].
  - unfold all_missing. simpl. apply put_all_missing; [now apply H0 |].
    apply Hrs; [now left | exact Hout].
  - apply IH; try assumption. intros r' Hr'. apply Hrs. now right.
Qed.

Lemma aligned_cells_missing (out : value -> Prop) (s : Series) (rs : list row) :
  (forall l, out l -> ~ In l (map fst s)) ->
  Forall2 (fun r v => out (fst r) -> v = VNaN) rs (map (series_get s) (map fst rs)).
Proof.
  intros H. induction rs as [| r rs IH]; simpl; constructor; [| exact IH].
  intros Ho. apply series_get_absent. now apply H.
Qed.

Lemma positional_cells_missing (out : value -> Prop) (s : Series) (rs : list row) :
  (forall l, out l -> ~ In l (map fst s)) ->
  map fst s = map fst rs ->
  Forall2 (fun r v => out (fst r) -> v = VNaN) rs (map snd s).
Proof.
  intros H. revert rs. induction s as [| p s IH]; intros [| r rs] E; try discriminate;
    simpl; constructor.
  - intros Ho. exfalso. apply (H (fst r) Ho). simpl in *. left. congruence.
  - apply IH; [| simpl in E; congruence].
    intros l Hl G. apply (H l Hl). now right.
Qed.

Lemma inner_join_index (l r : list row) (w : nat) :
  incl (map fst (join_rows Inner w l r)) (map fst r).
Proof.
  intros x Hx. apply in_map_iff in Hx. destruct Hx as [row [<- Hrow]].
  unfold join_rows in Hrow. apply in_flat_map in Hrow.
  destruct Hrow as [lr [_ Hrow]].
  destruct (rows_labelled (fst lr) r) as [| m ms] eqn:E; [contradiction |].
  apply in_map_iff in Hrow. destruct Hrow as [rr [<- Hrr]]. simpl.
  rewrite <- E in Hrr. apply rows_labelled_In in Hrr. destruct Hrr as [Hrr <-].
  now apply in_map.
Qed.

Lemma merged_view_index (dm : DatasetManager) (m : DataFrame) :
  merge_sample_metadata_data dm = Ok m -> incl (index m) (index (data dm)).
Proof.
  unfold merge_sample_metadata_data, merge.
  destruct (_ || _); [discriminate |]. intros H. injection H as <-.
  unfold index. cbn [rows]. apply inner_join_index.
Qed.

Lemma fill_nan_shape (dm : DatasetManager) (m : DataFrame) :
  shaped_like dm m (fill_nan (data dm)) /\
  (forall r, In r (rows (fill_nan (data dm))) -> all_missing r).
Proof.
  assert (H : forall r, In r (rows (fill_nan (data dm))) -> all_missing r).
  { intros r Hr. unfold fill_nan in Hr. cbn [rows] in Hr.
    apply in_map_iff in Hr. destruct Hr as [r0 [<- _]].
    unfold all_missing. simpl. apply Forall_forall. intros v Hv.
    apply in_map_iff in Hv. now destruct Hv as [_ [<- _]]. }
  split; [| exact H].
  repeat split.
  - unfold index, fill_nan. cbn [rows]. now rewrite map_map.
  - intros r Hr _. now apply H.
Qed.

Section Fitting.

Variable model : Type.
Variable ols : string -> DataFrame -> result (Series * model).

(** What is asked of the regression: the residual series it returns is
    labelled by rows of the table it was fitted on. *)
Hypothesis residuals_are_labelled_by_rows :
  forall f t r mdl, ols f t = Ok (r, mdl) -> incl (map fst r) (index t).

Variable dm : DatasetManager.
Variable h : EffectsHandler.
Hypothesis h_merged : merge_sample_metadata_data dm = Ok (merged h).
Hypothesis h_manager : data_manager h = dm.

(** One assignment [self.residuals[metabolite] = residuals]. *)
Lemma set_col_series_shape (res res' : DataFrame) (c : value) (r : Series) :
  shaped_like dm (merged h) res ->
  In c (columns (data dm)) ->
  incl (map fst r) (index (merged h)) ->
  set_col_series res c r = Ok res' ->
  shaped_like dm (merged h) res'.
Proof.
  intros (Hidx & Hcols & Hmiss) Hc Hr Hset.
  assert (Hout : forall l, ~ In l (index (merged h)) -> ~ In l (map fst r)).
  { intros l Hl G. apply Hl. now apply Hr. }
  unfold set_col_series in Hset.
  assert (Hdf0 : (len res =? 0)%nat && negb (List.length r =? 0)%nat = false).
  { destruct (len res =? 0)%nat eqn:E; [| reflexivity]. apply Nat.eqb_eq in E.
    destruct r as [| p r]; [reflexivity |]. exfalso.
    assert (Hp : In (fst p) (index (data dm))).
    { apply (merged_view_index dm _ h_merged). apply Hr. now left. }
    rewrite <- Hidx in Hp. unfold index in Hp. unfold len in E.
    destruct (rows res); [contradiction | discriminate]. }
  rewrite Hdf0 in Hset.
  assert (Hmem : mem c (columns res) = true) by (apply mem_In; now rewrite Hcols).
  unfold set_col in Hset. rewrite Hmem in Hset.
  destruct (labels_eqb (map fst r) (index res)) eqn:Elab.
  - apply labels_eqb_eq in Elab.
    destruct (negb _) eqn:Elen in Hset; [discriminate |]. injection Hset as <-.
    apply negb_false_iff, Nat.eqb_eq in Elen.
    repeat split; cbn [columns rows index_name]; try assumption.
    + unfold index. cbn [rows]. rewrite zip_with_index; [exact Hidx | exact Elen].
    + intros row Hrow Hex.
      apply (zip_put_keeps_missing (fun l => ~ In l (index (merged h))) c (columns res)
               (rows res) (map snd r)); try assumption.
      apply (positional_cells_missing (fun l => ~ In l (index (merged h)))); assumption.
  - destruct (is_unique (map fst r)); [| discriminate].
    destruct (negb _) eqn:Elen in Hset; [discriminate |]. injection Hset as <-.
    apply negb_false_iff, Nat.eqb_eq in Elen.
    repeat split; cbn [columns rows index_name]; try assumption.
    + unfold index. cbn [rows]. rewrite zip_with_index; [exact Hidx | exact Elen].
    + intros row Hrow Hex.
      apply (zip_put_keeps_missing (fun l => ~ In l (index (merged h))) c (columns res)
               (rows res) (map (series_get r) (index res))); try assumption.
      apply (aligned_cells_missing (fun l => ~ In l (index (merged h)))); assumption.
Qed.

(** The loop keeps the shape, whether it runs to its end or raises. *)
Lemma fit_all_shape (path : option string) (todo : list value) (res : DataFrame)
    (files : list (string * model)) :
  shaped_like dm (merged h) res ->
  incl todo (columns (data dm)) ->
  shaped_like dm (merged h) (snd (fst (fit_all model ols h path todo res files))).
Proof.
  revert res files. induction todo as [| m todo IH]; intros res files Hres Htodo;
    [exact Hres |].
  cbn [fit_all]. destruct (fit_model model ols h m) as [[r mdl] | e] eqn:Efit;
    [| exact Hres].
  destruct (set_col_series res m r) as [res' | e] eqn:Eset; [| exact Hres].
  apply IH.
  - apply (set_col_series_shape res res' m r Hres); try assumption.
    + apply Htodo. now left.
    + unfold fit_model in Efit.
      apply (residuals_are_labelled_by_rows _ _ _ _ Efit).
  - intros x Hx. apply Htodo. now right.
Qed.

End Fitting.

(** C8.  For a pipeline configured on a dataset whose metabolite list
    names columns of the abundance table, and a regression whose
    residual series is labelled by rows of the merged view: the residual
    table starts with the row index and the column index of the
    abundance table and the missing marker in every cell; after
    [get_all_residuals], whether it ran to its end or raised at some
    feature, it still has that row index and that column index, and every
    row whose sample is not in the merged view holds the missing marker
    in every column.  On success the table returned is the one the
    handler holds. *)
Theorem residual_table_shape (model : Type)
    (ols : string -> DataFrame -> result (Series * model))
    (dm : DatasetManager) (formula0 : string) (h : EffectsHandler) :
  (forall f t r mdl, ols f t = Ok (r, mdl) -> incl (map fst r) (index t)) ->
  incl (metabolites dm) (columns (data dm)) ->
  init_handler dm formula0 = Ok h ->
  (index (residuals h) = index (data dm) /\
   columns (residuals h) = columns (data dm) /\
   forall r, In r (rows (residuals h)) -> all_missing r) /\
  forall path,
    let after := get_all_residuals model ols path h in
    shaped_like dm (merged h) (residuals (snd (fst after))) /\
    (forall res, fst (fst after) = Ok res -> res = residuals (snd (fst after))).
Proof.
  intros Hfit Hmet Hinit. unfold init_handler in Hinit.
  destruct (merge_sample_metadata_data dm) as [m |] eqn:Em; [| discriminate].
  cbn [rbind] in Hinit. injection Hinit as <-. cbn [residuals merged].
  destruct (fill_nan_shape dm m) as [Hshape Hall].
  split.
  - destruct Hshape as (Hi & Hc & _). repeat split; assumption.
  - intros path. unfold get_all_residuals. cbn [data_manager residuals merged formula].
    pose proof (fit_all_shape model ols Hfit dm (mkEH dm formula0 m (fill_nan (data dm)))
                  Em path (metabolites dm) (fill_nan (data dm)) [] Hshape Hmet) as H.
    cbn [merged] in H.
    destruct (fit_all model ols (mkEH dm formula0 m (fill_nan (data dm))) path
                (metabolites dm) (fill_nan (data dm)) []) as [[out res] files].
    cbn [fst snd residuals] in *. split; [exact H |].
    intros res0 Hres. destruct out; [| discriminate]. cbn [rbind] in Hres. congruence.
Qed.

Lemma zero_fit_labelled (f : string) (t : DataFrame) (r : Series) (mdl : unit) :
  Examples.zero_fit f t = Ok (r, mdl) -> incl (map fst r) (index t).
Proof.
  unfold Examples.zero_fit. intros H. injection H as <- _.
  rewrite map_map. apply incl_refl.
Qed.

Lemma residual_table_shape_witness :
  init_handler Examples.loaded_extra_row "C(batch)" = Ok Examples.handler_extra_row /\
  fst (fst (get_all_residuals unit Examples.zero_fit None Examples.handler_extra_row))
  = Ok (mkDF (Some Examples.sid) [Examples.S "M1"; Examples.S "M2"]
          [(Examples.S "S1", [VInt 0; VInt 0]);
           (Examples.S "S2", [VInt 0; VInt 0]);
           (Examples.S "S3", [VNaN; VNaN])]) /\
  shaped_like Examples.loaded_extra_row (merged Examples.handler_extra_row)
    (residuals (snd (fst (get_all_residuals unit Examples.zero_fit None
                            Examples.handler_extra_row)))).
Proof.
  assert (Hmet : incl (metabolites Examples.loaded_extra_row)
                   (columns (data Examples.loaded_extra_row))) by in_concrete.
  assert (E : init_handler Examples.loaded_extra_row "C(batch)"
              = Ok Examples.handler_extra_row) by (vm_compute; reflexivity).
  split; [exact E |].
  split; [vm_compute; reflexivity |].
  pose proof (residual_table_shape unit Examples.zero_fit Examples.loaded_extra_row
                "C(batch)" Examples.handler_extra_row zero_fit_labelled Hmet E)
    as H.
  destruct H as [_ H]. specialize (H None). cbv zeta in H.
  destruct H as [H _]. exact H.
Defined.

(** ** What the table operations do to the labels *)


Lemma set_index_ok (df df2 : DataFrame) (c : value) :
  set_index df c = Ok df2 ->
  index df2 = column_cells c df /\ index_name df2 = Some c /\
  columns df2 = filter (fun x => negb (value_eqb x c)) (columns df) /\
  exists x, occurrences c (columns df) = [x].
Proof.
  unfold set_index. destruct (occurrences c (columns df)) as [| x [| y t]] eqn:E;
    try discriminate.
  intros H. injection H as <-. unfold index, column_cells. cbn [rows index_name columns].
  rewrite map_map. cbn [fst]. repeat split. now exists x.
Qed.

Lemma occurrences_all_eq (c : value) (l : list value) (x : value) :
  In x (occurrences c l) -> x = c.
Proof.
  unfold occurrences. intros H. apply filter_In in H. destruct H as [_ H].
  now apply value_eqb_eq in H.
Qed.

Lemma occurrences_single (c : value) (l : list value) (x : value) :
  occurrences c l = [x] -> occurrences c l = [c].
Proof.
  intros H. rewrite H. f_equal. apply (occurrences_all_eq c l). rewrite H. now left.
Qed.

Lemma pick_put (c v : value) (cols cells : list value) :
  pick c cols (put c v cols cells) = map (fun _ => v) (pick c cols cells).
Proof.
  revert cells. induction cols as [| x cols IH]; intros [| w cells];
    try reflexivity.
  unfold pick in *. simpl. destruct (value_eqb x c); simpl; rewrite IH; auto.
Qed.

Lemma pick_present (c : value) (cols cells : list value) :
  List.length cells = List.length cols -> In c cols -> pick c cols cells <> [].
Proof.
  revert cells. induction cols as [| x cols IH]; intros [| w cells] H Hin;
    try discriminate; [contradiction |].
  unfold pick in *. simpl. destruct (value_eqb x c) eqn:E; [discriminate |].
  apply IH; [now injection H |]. destruct Hin as [-> | Hin]; [| assumption].
  rewrite value_eqb_refl in E. discriminate.
Qed.

Lemma zip_with_same {A B} (f : A -> B -> A) (g : A -> B) (h : A -> A) (l : list A) :
  (forall a, f a (g a) = h a) -> zip_with f l (map g l) = map h l.
Proof.
  intros H. induction l as [| a l IH]; simpl; [reflexivity |]. now rewrite H, IH.
Qed.

(** [df[c] = df[c].astype(str)] followed by [set_index(c)], on a table
    whose rows all have a cell under [c]: the index is the printed
    column. *)
Lemma astype_then_set_index_cells (df df1 df2 : DataFrame) (c : value) :
  (forall r, In r (rows df) -> pick c (columns df) (snd r) <> []) ->
  astype_str_col c df = Ok df1 -> set_index df1 c = Ok df2 ->
  index df2 = map py_str (column_cells c df) /\ index_name df2 = Some c /\
  columns df2 = filter (fun x => negb (value_eqb x c)) (columns df).
Proof.
  intros Hcell Hast Hset. unfold astype_str_col in Hast.
  unfold get_col in Hast.
  destruct (occurrences c (columns df)) as [| x [| y t]] eqn:E; try discriminate.
  cbn [rbind] in Hast. unfold set_col in Hast.
  rewrite !length_map in Hast. unfold len in Hast. rewrite Nat.eqb_refl in Hast.
  cbn [negb] in Hast.
  assert (Hc : In c (columns df)).
  { apply occurrences_In. now apply (occurrences_single c _ x). }
  rewrite (proj2 (mem_In _ _) Hc) in Hast. injection Hast as <-.
  apply set_index_ok in Hset. cbn [columns] in Hset.
  destruct Hset as (Hidx & Hname & Hcols & _). repeat split; try assumption.
  rewrite Hidx. unfold column_cells. cbn [columns rows].
  rewrite map_map. cbn [snd].
  rewrite (zip_with_same _
             (fun r => py_str (hd VNaN (pick c (columns df) (snd r))))
             (fun r => (fst r, put c (py_str (hd VNaN (pick c (columns df) (snd r))))
                                 (columns df) (snd r)))) by reflexivity.
  rewrite !map_map. cbn [snd]. apply map_ext_in. intros r Hr.
  rewrite pick_put. specialize (Hcell r Hr).
  destruct (pick c (columns df) (snd r)); [contradiction | reflexivity].
Qed.

Lemma astype_then_set_index (df df1 df2 : DataFrame) (c : value) :
  rect df ->
  astype_str_col c df = Ok df1 -> set_index df1 c = Ok df2 ->
  index df2 = map py_str (column_cells c df) /\ index_name df2 = Some c /\
  columns df2 = filter (fun x => negb (value_eqb x c)) (columns df).
Proof.
  intros Hrect Hast Hset.
  apply (astype_then_set_index_cells df df1 df2 c); try assumption.
  intros r Hr. unfold rect in Hrect. rewrite Forall_forall in Hrect.
  apply pick_present; [now apply Hrect |].
  unfold astype_str_col, get_col in Hast.
  destruct (occurrences c (columns df)) as [| x [| y t]] eqn:E; try discriminate.
  apply occurrences_In. now apply (occurrences_single c _ x).
Qed.


Lemma occurrences_each_once (cols L : list value) :
  NoDup cols -> incl L cols -> flat_map (fun l => occurrences l cols) L = L.
Proof.
  intros Hn. induction L as [| l L IH]; intros Hi; [reflexivity |]. simpl.
  rewrite (occurrences_once l cols Hn) by (apply Hi; now left).
  simpl. f_equal. apply IH. intros x Hx. apply Hi. now right.
Qed.




(** ** The invariant after an import *)



(** ** The invariant under the drop methods *)






(** ** The invariant under a renaming *)



(** ** The members of a split *)





















(** ** C1: the tables stay in step *)





(** ** Tables that survive [reset_index] and back *)









(** ** Running the steps of a member's construction *)

Lemma import_tables_run (d ca sm : DataFrame) (s0 : DatasetManager)
    (sm1 sm2 d1 d2 ca1 ca2 d3 : DataFrame) :
  let sid := _sample_id_column s0 in
  let mid := _metabolite_id_column s0 in
  mem sid (columns d) = true -> mem sid (columns sm) = true ->
  mem mid (columns ca) = true ->
  astype_str_col sid sm = Ok sm1 -> set_index sm1 sid = Ok sm2 ->
  set_columns d (map py_str (columns d)) = Ok d1 -> set_index d1 sid = Ok d2 ->
  astype_str_col mid ca = Ok ca1 -> set_index ca1 mid = Ok ca2 ->
  select_cols d2 (index ca2) = Ok d3 ->
  import_tables d ca sm s0
  = (Ok tt, mkDM (_data_provider s0) sid sm2 (index sm2) mid ca2 (index ca2) d3).
Proof.
  intros sid mid M1 M2 M3 A1 A2 A3 A4 A5 A6 A7. subst sid mid.
  unfold import_tables, parser_import_tables, _setup_data, _remove_metadata_from_data,
    except_ValueError, bind, gets, raise, update_sample_metadata, update_data,
    update_chemical_annotation, assign_sample_metadata, assign_data, assign_samples,
    assign_chemical_annotation, assign_metabolites, bind, gets, lift, parse_input.
  proj. rewrite M1, M2. cbn [andb]. proj. rewrite A1. proj. rewrite A2. proj.
  rewrite A3. proj. rewrite A4. proj. rewrite M3. proj. rewrite A5. proj.
  rewrite A6. proj. rewrite A7. proj. reflexivity.
Qed.


Lemma update_metadata_run (s : DatasetManager) (sm' : DataFrame) :
  loc (sample_metadata s) (index_name (data s)) (index (data s)) = Ok sm' ->
  _update_sample_metadata s
  = (Ok tt, mkDM (_data_provider s) (_sample_id_column s) sm' (index sm')
              (_metabolite_id_column s) (chemical_annotation s) (metabolites s) (data s)).
Proof.
  intros H. unfold _update_sample_metadata, update_sample_metadata,
    assign_sample_metadata, assign_samples, bind, gets, lift.
  rewrite H. reflexivity.
Qed.



Lemma flat_map_head {A B} (f : A -> list B) (a : A) (l : list A) :
  flat_map f (a :: l) = f a ++ flat_map f l.
Proof. reflexivity. Qed.

(** One row per label: [loc] on a duplicate-free index gives back the
    labels it was asked for. *)
Lemma loc_labels (rs : list row) (L : list value) :
  NoDup (map fst rs) -> incl L (map fst rs) ->
  map fst (flat_map (fun l => rows_labelled l rs) L) = L.
Proof.
  intros Hn. induction L as [| l L IH]; intros Hi; [reflexivity |].
  rewrite flat_map_head, map_app.
  assert (Hl : In l (map fst rs)) by (apply Hi; now left).
  assert (E : map fst (rows_labelled l rs) = [l]).
  { clear -Hn Hl. induction rs as [| r rs IH]; [contradiction |].
    cbn [map] in Hn. inversion Hn as [| ? ? Hnotin Hn']; subst.
    unfold rows_labelled. cbn [filter]. destruct (value_eqb (fst r) l) eqn:E.
    - apply value_eqb_eq in E. subst l. cbn [map]. f_equal.
      fold (rows_labelled (fst r) rs). now rewrite rows_labelled_absent.
    - apply IH; [assumption |]. destruct Hl as [Hl | Hl]; [| assumption].
      apply value_eqb_neq in E. contradiction. }
  unfold row in *. rewrite E. cbn [app]. f_equal. apply IH. intros x Hx. apply Hi. now right.
Qed.


Lemma rows_labelled_incl (L : list value) (rs : list row) :
  incl (flat_map (fun l => rows_labelled l rs) L) rs.
Proof.
  intros r Hr. apply in_flat_map in Hr. destruct Hr as [l [_ Hr]].
  apply rows_labelled_In in Hr. tauto.
Qed.



(** ** The groups of a table and their keys *)












(** ** C2: the split by a sample column *)

(** The statement of the specification fails: a sample whose cell under
    the column is missing is in no partition. *)
Lemma split_leaves_out_missing_cells : ~ Stated.split_partitions_samples.
Proof.
  intros H.
  assert (N : forall k m, In (k, m) Examples.nan_family ->
                ~ In (Examples.S "S2") (samples m)).
  { assert (F : forallb (fun km => negb (mem (Examples.S "S2") (samples (snd km))))
                 Examples.nan_family = true) by (vm_compute; reflexivity).
    intros k m Hin Hx. rewrite forallb_forall in F. specialize (F _ Hin).
    cbn [snd] in F. apply mem_In in Hx. rewrite Hx in F. discriminate F. }
  assert (X : In (Examples.S "S2") (samples Examples.loaded_nan))
    by (vm_compute; right; left; reflexivity).
  assert (C : In (Examples.S "batch") (columns (sample_metadata Examples.loaded_nan)))
    by (vm_compute; left; reflexivity).
  assert (I0 : init "metabolon" Examples.sid Examples.mid = Ok Examples.fresh)
    by reflexivity.
  assert (I : import_tables Examples.data2 Examples.chem2 Examples.meta_nan Examples.fresh
              = (Ok tt, Examples.loaded_nan)) by (vm_compute; reflexivity).
  assert (E : split_by_sample_column (Examples.S "batch") Examples.loaded_nan
              = Ok Examples.nan_family) by (vm_compute; reflexivity).
  pose proof (H _ _ _ _ _ _ _ _ _ _ I0 I C E) as U.
  destruct U as [U _]. specialize (U _ X).
  destruct U as (k & m & Hin & Hx). exact (N k m Hin Hx).
Qed.




(** * Further properties of the methods *)

(** ** How identifiers are read *)

Lemma py_str_idem (v : value) : py_str (py_str v) = py_str v.
Proof. destruct v; reflexivity. Qed.

Lemma map_py_str_idem (l : list value) : map py_str (map py_str l) = map py_str l.
Proof. rewrite map_map. apply map_ext. intros v. apply py_str_idem. Qed.

Lemma forallb_mem_not_incl (l m : list value) :
  ~ incl l m -> forallb (fun x => mem x m) l = false.
Proof.
  intros H. destruct (forallb _ l) eqn:E; [| reflexivity].
  exfalso. apply H. now apply forallb_mem_incl.
Qed.

(** X2.  [drop_samples], [drop_metabolites], [extract_metabolites] and
    [extract_chemical_annotations] read every identifier through [str]:
    a call gives the same outcome and the same object as the call on the
    printed identifiers, so the number 7 and the text "7" name the same
    row or column.  [extract_samples] does not: on a sample metadata
    whose index is text, as an import leaves it, a request that holds an
    identifier that is not text raises [KeyError]. *)
Theorem identifiers_read_as_text (ids : ids_arg) (inplace : bool) (s : DatasetManager) :
  Forall is_str (index (sample_metadata s)) ->
  let printed := Many (map py_str (as_list ids)) in
  drop_samples ids inplace s = drop_samples printed inplace s /\
  drop_metabolites ids inplace s = drop_metabolites printed inplace s /\
  extract_metabolites ids s = extract_metabolites printed s /\
  extract_chemical_annotations ids s = extract_chemical_annotations printed s /\
  ((exists i, In i (as_list ids) /\ ~ is_str i) ->
   extract_samples ids s = Raise KeyError).
Proof.
  intros Ht printed.
  split; [| split; [| split; [| split]]].
  - unfold drop_samples, printed. cbv zeta. cbn [as_list].
    now rewrite map_py_str_idem.
  - unfold drop_metabolites, printed. cbv zeta. cbn [as_list].
    now rewrite map_py_str_idem.
  - unfold extract_metabolites, printed. cbv zeta. cbn [as_list].
    now rewrite map_py_str_idem.
  - unfold extract_chemical_annotations, printed. cbv zeta. cbn [as_list].
    now rewrite map_py_str_idem.
  - intros [i [Hi Hn]]. unfold extract_samples, loc. cbv zeta.
    rewrite forallb_mem_missing; [reflexivity |].
    exists i. split; [assumption |]. intros G. apply Hn.
    rewrite Forall_forall in Ht. now apply Ht.
Qed.

Lemma loaded3_samples_text : Forall is_str (index (sample_metadata Examples.loaded3)).
Proof. vm_compute. repeat constructor. Qed.

Lemma identifiers_read_as_text_witness :
  drop_metabolites (One (VInt 7)) true Examples.loaded3
    = drop_metabolites (Many [VStr "7"]) true Examples.loaded3 /\
  extract_samples (Many [Examples.S "S1"; VInt 2]) Examples.loaded3 = Raise KeyError.
Proof.
  pose proof (identifiers_read_as_text (One (VInt 7)) true Examples.loaded3
                loaded3_samples_text) as H1.
  pose proof (identifiers_read_as_text (Many [Examples.S "S1"; VInt 2]) true
                Examples.loaded3 loaded3_samples_text) as H2.
  cbv zeta in H1, H2.
  destruct H1 as (_ & H1 & _). destruct H2 as (_ & _ & _ & _ & H2).
  split; [exact H1 |].
  apply H2. exists (VInt 2). split; [right; now left | intros []].
Defined.

(** ** Looking rows up by label *)

(** X3.  On an annotation table without a repeated identifier,
    [extract_chemical_annotations] returns the rows of the requested
    identifiers in the order of the request, under the columns and the
    index name of the annotation table, when every printed identifier is
    in its index; it raises [KeyError] when one is not. *)
Theorem extract_chemical_annotations_in_request_order (ids : ids_arg)
    (s : DatasetManager) :
  NoDup (index (chemical_annotation s)) ->
  let ca := chemical_annotation s in
  let L := map py_str (as_list ids) in
  (incl L (index ca) ->
   exists df,
     extract_chemical_annotations ids s = Ok df /\
     index df = L /\ columns df = columns ca /\ index_name df = index_name ca /\
     incl (rows df) (rows ca)) /\
  (~ incl L (index ca) -> extract_chemical_annotations ids s = Raise KeyError).
Proof.
  intros Hn ca L. split.
  - intros Hi. unfold extract_chemical_annotations, loc. cbv zeta.
    fold ca. fold L. rewrite (proj2 (forallb_mem_incl _ _) Hi).
    eexists. split; [reflexivity |]. unfold index. cbn [rows columns index_name].
    split; [apply loc_labels; assumption |].
    split; [reflexivity |]. split; [reflexivity |]. apply rows_labelled_incl.
  - intros Hi. unfold extract_chemical_annotations, loc. cbv zeta.
    fold ca. fold L. now rewrite (forallb_mem_not_incl _ _ Hi).
Qed.

Lemma extract_chemical_annotations_in_request_order_witness :
  exists df,
    extract_chemical_annotations (Many [Examples.S "M2"; Examples.S "M1"]) Examples.loaded3
      = Ok df /\
    index df = [Examples.S "M2"; Examples.S "M1"].
Proof.
  assert (Hn : NoDup (index (chemical_annotation Examples.loaded3))) by nodup_concrete.
  pose proof (extract_chemical_annotations_in_request_order
                (Many [Examples.S "M2"; Examples.S "M1"]) Examples.loaded3 Hn) as H.
  cbv zeta in H. destruct H as [H _].
  destruct H as (df & E & I & _).
  - in_concrete.
  - exists df. split; [exact E | exact I].
Defined.

(** ** Dropping samples *)

(** X4.  When every row label of the abundance table is a sample of the
    metadata and the metadata has no repeated sample, [drop_samples] in
    place with identifiers that are all row labels goes through: the
    abundance table loses the rows of those labels and nothing else, and
    the sample metadata is looked up again by the rows that remain, so
    its index and [samples] become the row labels of the abundance table
    in the order of the abundance table; a sample of the metadata that
    has no abundance row leaves the metadata although it was not named.
    The annotation table is not touched. *)
Theorem drop_samples_realigns_metadata (ids : ids_arg) (s : DatasetManager) :
  NoDup (index (sample_metadata s)) ->
  incl (index (data s)) (index (sample_metadata s)) ->
  let L := map py_str (as_list ids) in
  incl L (index (data s)) ->
  exists s',
    drop_samples ids true s = (Ok None, s') /\
    rows (data s') = filter (fun r => negb (mem (fst r) L)) (rows (data s)) /\
    columns (data s') = columns (data s) /\
    index (sample_metadata s') = index (data s') /\
    samples s' = index (data s') /\
    columns (sample_metadata s') = columns (sample_metadata s) /\
    incl (rows (sample_metadata s')) (rows (sample_metadata s)) /\
    chemical_annotation s' = chemical_annotation s /\
    metabolites s' = metabolites s.
Proof.
  intros Hn Hsub L HL.
  set (d' := mkDF (index_name (data s)) (columns (data s))
               (filter (fun r => negb (mem (fst r) L)) (rows (data s)))).
  assert (Hd' : incl (index d') (index (sample_metadata s))).
  { intros x Hx. apply Hsub. unfold d', index in Hx. cbn [rows] in Hx.
    apply in_map_iff in Hx. destruct Hx as [r [<- Hr]]. apply filter_In in Hr.
    unfold index. apply in_map. tauto. }
  unfold drop_samples. cbv zeta. fold L.
  unfold bind, gets, lift, drop_rows, ret, assign_data. proj.
  rewrite (proj2 (forallb_mem_incl _ _) HL). fold d'.
  rewrite (update_metadata_run _
             (mkDF (index_name d') (columns (sample_metadata s))
                (flat_map (fun l => rows_labelled l (rows (sample_metadata s)))
                   (index d')))).
  - proj. eexists. split; [reflexivity |]. proj.
    assert (I : index (mkDF (index_name d') (columns (sample_metadata s))
                         (flat_map (fun l => rows_labelled l (rows (sample_metadata s)))
                            (index d'))) = index d').
    { unfold index at 1. cbn [rows]. apply loc_labels; assumption. }
    split; [reflexivity |]. split; [reflexivity |].
    split; [exact I |]. split; [exact I |].
    split; [reflexivity |]. split; [| split; reflexivity].
    cbn [rows]. apply rows_labelled_incl.
  - proj. unfold loc. now rewrite (proj2 (forallb_mem_incl _ _) Hd').
Qed.

Lemma drop_samples_realigns_metadata_witness :
  exists s',
    drop_samples (One (Examples.S "S2")) true Examples.loaded3 = (Ok None, s') /\
    samples s' = index (data s').
Proof.
  assert (Hn : NoDup (index (sample_metadata Examples.loaded3))) by nodup_concrete.
  assert (Hs : incl (index (data Examples.loaded3))
                 (index (sample_metadata Examples.loaded3))) by in_concrete.
  pose proof (drop_samples_realigns_metadata (One (Examples.S "S2")) Examples.loaded3
                Hn Hs) as H.
  cbv zeta in H. destruct H as (s' & E & _ & _ & _ & S' & _).
  - in_concrete.
  - exists s'. split; [exact E | exact S'].
Defined.

(** X5.  [drop_samples] in place stores the reduced abundance table
    before it looks the sample metadata up again.  When a row that
    remains is labelled by a sample the metadata does not hold, the
    lookup raises [KeyError] and the object is left with the reduced
    abundance table beside the sample metadata and the sample list it
    had; the same call without [inplace] returns the reduced table and
    changes nothing. *)
Theorem drop_samples_failed_lookup_keeps_reduced_data (ids : ids_arg)
    (s : DatasetManager) :
  let L := map py_str (as_list ids) in
  let reduced := mkDF (index_name (data s)) (columns (data s))
                   (filter (fun r => negb (mem (fst r) L)) (rows (data s))) in
  incl L (index (data s)) ->
  (exists x, In x (index (data s)) /\ ~ In x L /\ ~ In x (index (sample_metadata s))) ->
  drop_samples ids true s
  = (Raise KeyError,
     mkDM (_data_provider s) (_sample_id_column s) (sample_metadata s) (samples s)
       (_metabolite_id_column s) (chemical_annotation s) (metabolites s) reduced) /\
  drop_samples ids false s = (Ok (Some reduced), s).
Proof.
  intros L reduced HL [x (Hx & HxL & Hxm)].
  unfold drop_samples. cbv zeta. fold L.
  unfold bind, gets, lift, drop_rows, ret, assign_data. proj.
  rewrite (proj2 (forallb_mem_incl _ _) HL). fold reduced. split; [| reflexivity].
  unfold _update_sample_metadata, update_sample_metadata, bind, gets, lift, loc. proj.
  rewrite forallb_mem_missing; [reflexivity |].
  exists x. split; [| assumption].
  unfold reduced, index. cbn [rows]. unfold index in Hx.
  apply in_map_iff in Hx. destruct Hx as [r [<- Hr]]. apply in_map.
  apply filter_In. split; [assumption |]. apply negb_true_iff. now apply mem_not_In.
Qed.

Lemma drop_samples_failed_lookup_keeps_reduced_data_witness :
  fst (drop_samples (One (Examples.S "S1")) true Examples.loaded_extra_row)
    = Raise KeyError /\
  index (data (snd (drop_samples (One (Examples.S "S1")) true Examples.loaded_extra_row)))
    = [Examples.S "S2"; Examples.S "S3"].
Proof.
  pose proof (drop_samples_failed_lookup_keeps_reduced_data (One (Examples.S "S1"))
                Examples.loaded_extra_row) as H.
  cbv zeta in H. destruct H as [H _].
  - in_concrete.
  - exists (Examples.S "S3"). split; [vm_compute; auto |].
    split; vm_compute; intros G;
      repeat (destruct G as [G | G]; [discriminate G |]); exact G.
  - rewrite H. split; [reflexivity | vm_compute; reflexivity].
Defined.

(** ** Dropping nothing *)





(** X7.  Without a column labelled "SUPER_PATHWAY" in the annotation
    table, [drop_xenobiotic_metabolites] raises [KeyError] and leaves the
    object as it was, with [inplace] or without. *)
Theorem drop_xenobiotic_needs_the_pathway_column (inplace : bool) (s : DatasetManager) :
  ~ In (VStr "SUPER_PATHWAY") (columns (chemical_annotation s)) ->
  drop_xenobiotic_metabolites inplace s = (Raise KeyError, s).
Proof.
  intros H. unfold drop_xenobiotic_metabolites, bind, gets, lift, get_col.
  now rewrite (occurrences_absent _ _ H).
Qed.

Lemma drop_xenobiotic_needs_the_pathway_column_witness :
  drop_xenobiotic_metabolites true Examples.fresh = (Raise KeyError, Examples.fresh).
Proof.
  apply (drop_xenobiotic_needs_the_pathway_column true Examples.fresh).
  intros [].
Defined.

(** ** What [replace_column_names] refuses *)

(** X8.  [replace_column_names] raises [ValueError] and leaves the object
    as it was when the new column is not a column of the annotation
    table, and also when a column of the abundance table is not in the
    index of the annotation table. *)
Theorem replace_column_names_refuses (c : value) (s : DatasetManager) :
  (~ In c (columns (chemical_annotation s)) ->
   replace_column_names c s = (Raise ValueError, s)) /\
  ((exists x, In x (columns (data s)) /\ ~ In x (index (chemical_annotation s))) ->
   replace_column_names c s = (Raise ValueError, s)).
Proof.
  split.
  - intros H. unfold replace_column_names, bind, gets, raise.
    now rewrite (proj2 (mem_not_In _ _) H).
  - intros [x [Hx Hn]]. unfold replace_column_names, bind, gets, raise.
    destruct (mem c (columns (chemical_annotation s))); [| reflexivity].
    cbn [negb].
    destruct (filter (fun c0 => negb (mem c0 (index (chemical_annotation s))))
                (columns (data s))) as [| y t] eqn:E; [| reflexivity].
    exfalso. assert (G : In x []); [| contradiction].
    rewrite <- E. apply filter_In. split; [assumption |].
    apply negb_true_iff. now apply mem_not_In.
Qed.

Lemma replace_column_names_refuses_witness :
  replace_column_names (Examples.S "FORMULA") Examples.loaded3
  = (Raise ValueError, Examples.loaded3).
Proof.
  apply (proj1 (replace_column_names_refuses (Examples.S "FORMULA") Examples.loaded3)).
  vm_compute. intros G. repeat (destruct G as [G | G]; [discriminate G |]). exact G.
Defined.

(** ** The merged view *)

Lemma join_inner_eq (w : nat) (l r : list row) :
  join_rows Inner w l r
  = flat_map (fun lr => map (fun rr => (fst lr, snd lr ++ snd rr))
                          (rows_labelled (fst lr) r)) l.
Proof.
  unfold join_rows. apply flat_map_ext_In. intros lr _.
  now destruct (rows_labelled (fst lr) r).
Qed.

Lemma join_inner_In (w : nat) (l r : list row) (x : row) :
  In x (join_rows Inner w l r) <->
  exists a b, In (fst x, a) l /\ In (fst x, b) r /\ snd x = a ++ b.
Proof.
  rewrite join_inner_eq, in_flat_map. split.
  - intros [lr [Hlr Hx]]. apply in_map_iff in Hx. destruct Hx as [rr [<- Hrr]].
    apply rows_labelled_In in Hrr. destruct Hrr as [Hrr E]. cbn [fst snd].
    exists (snd lr), (snd rr). split; [now destruct lr |].
    split; [| reflexivity]. rewrite <- E. now destruct rr.
  - intros [a [b (Ha & Hb & E)]]. exists (fst x, a). split; [assumption |].
    apply in_map_iff. exists (fst x, b). cbn [fst snd]. split.
    + rewrite <- E. now destruct x.
    + now apply rows_labelled_In.
Qed.

Lemma rows_labelled_single (rs : list row) (l : value) :
  NoDup (map fst rs) -> In l (map fst rs) ->
  exists cells, rows_labelled l rs = [(l, cells)].
Proof.
  induction rs as [| r rs IH]; intros Hn Hl; [contradiction |].
  simpl in Hn. inversion Hn as [| ? ? Hr Hn']; subst.
  unfold rows_labelled. simpl. destruct (value_eqb (fst r) l) eqn:E.
  - apply value_eqb_eq in E. subst l. exists (snd r).
    fold (rows_labelled (fst r) rs). rewrite (rows_labelled_absent _ _ Hr).
    now destruct r.
  - apply value_eqb_neq in E. destruct Hl as [Hl | Hl]; [contradiction |].
    now apply IH.
Qed.

Lemma join_inner_index (w : nat) (l r : list row) :
  NoDup (map fst r) ->
  map fst (join_rows Inner w l r)
  = filter (fun x => mem x (map fst r)) (map fst l).
Proof.
  intros Hn. rewrite join_inner_eq.
  induction l as [| a l IH]; [reflexivity |].
  rewrite flat_map_head, map_app, IH. simpl.
  destruct (mem (fst a) (map fst r)) eqn:E.
  - apply mem_In in E. destruct (rows_labelled_single r (fst a) Hn E) as [cells ->].
    reflexivity.
  - apply mem_not_In in E. now rewrite (rows_labelled_absent _ _ E).
Qed.

(** X9.  When no column label is in both tables,
    [merge_sample_metadata_data] goes through; the view has the columns
    of the sample metadata followed by those of the abundance table, and
    its rows are the pairs of a metadata row and an abundance row with
    the same sample identifier, the cells of the one followed by the
    cells of the other.  When no row label of the abundance table is
    repeated, the index of the view is the index of the sample metadata
    without the samples that have no abundance row: the rows come in the
    order of the sample metadata, not of the abundance table. *)
Theorem merged_view_joins_on_samples (s : DatasetManager) :
  (forall c, In c (columns (sample_metadata s)) -> ~ In c (columns (data s))) ->
  exists m,
    merge_sample_metadata_data s = Ok m /\
    columns m = columns (sample_metadata s) ++ columns (data s) /\
    (forall r, In r (rows m) <->
       exists a b, In (fst r, a) (rows (sample_metadata s)) /\
                   In (fst r, b) (rows (data s)) /\ snd r = a ++ b) /\
    (NoDup (index (data s)) ->
     index m = filter (fun x => mem x (index (data s))) (index (sample_metadata s))).
Proof.
  intros Hd. unfold merge_sample_metadata_data.
  destruct (merge_disjoint (sample_metadata s) (data s) Inner Hd) as [name ->].
  eexists. split; [reflexivity |]. cbn [columns rows]. split; [reflexivity |]. split.
  - intros r. apply join_inner_In.
  - intros Hn. unfold index at 1. cbn [rows]. now apply join_inner_index.
Qed.

Lemma merged_view_joins_on_samples_witness :
  exists m,
    merge_sample_metadata_data Examples.loaded_two_of_three = Ok m /\
    columns m = [Examples.S "batch"; Examples.S "M1"; Examples.S "M2"].
Proof.
  destruct (merged_view_joins_on_samples Examples.loaded_two_of_three)
    as (m & E & C & _).
  - vm_compute. intros c H. destruct H as [H | []]. subst c. intros G.
    repeat (destruct G as [G | G]; [discriminate G |]). exact G.
  - exists m. split; [exact E |]. rewrite C. vm_compute. reflexivity.
Defined.

(** X10.  When no column label is in both tables, [save_merged] raises
    [ValueError] exactly when no sample of the metadata has a row in the
    abundance table, whatever the two tables hold otherwise; when it
    goes through it writes the merged view to the data path first, and
    then the annotation table if a path that is not empty was given for
    it. *)
Theorem save_merged_needs_a_shared_sample (data_path : string)
    (chemical_annotation_path : option string) (s : DatasetManager) :
  (forall c, In c (columns (sample_metadata s)) -> ~ In c (columns (data s))) ->
  (save_merged data_path chemical_annotation_path s = Raise ValueError <->
   forall x, In x (index (sample_metadata s)) -> ~ In x (index (data s))) /\
  (forall w, save_merged data_path chemical_annotation_path s = Ok w ->
     exists m, merge_sample_metadata_data s = Ok m /\
       w = (data_path, m)
           :: (if truthy chemical_annotation_path
               then [(the_path chemical_annotation_path, chemical_annotation s)]
               else [])).
Proof.
  intros Hd. destruct (merged_view_joins_on_samples s Hd) as (m & E & _ & R & _).
  unfold save_merged. rewrite E. cbn [rbind]. unfold len.
  assert (Hempty : rows m = [] <->
            forall x, In x (index (sample_metadata s)) -> ~ In x (index (data s))).
  { split.
    - intros Hm x Hx Hy. unfold index in Hx, Hy.
      apply in_map_iff in Hx. destruct Hx as [[x1 a] [E1 Ha]].
      apply in_map_iff in Hy. destruct Hy as [[x2 b] [E2 Hb]].
      cbn [fst] in E1, E2. subst x1 x2.
      assert (G : In (x, a ++ b) (rows m)).
      { apply R. exists a, b. cbn [fst snd]. now repeat split. }
      rewrite Hm in G. contradiction.
    - intros Hno. destruct (rows m) as [| r t] eqn:Em; [reflexivity |].
      exfalso. assert (G : In r (r :: t)) by now left.
      apply R in G. destruct G as [a [b (Ha & Hb & _)]].
      apply (Hno (fst r)); unfold index.
      + change (fst r) with (fst (fst r, a)). now apply in_map.
      + change (fst r) with (fst (fst r, b)). now apply in_map. }
  split.
  - rewrite <- Hempty. destruct (rows m) as [| r t]; simpl.
    + tauto.
    + split; [discriminate | discriminate].
  - intros w Hw. exists m. split; [reflexivity |].
    destruct (List.length (rows m) =? 0)%nat; [discriminate Hw |].
    injection Hw as <-. reflexivity.
Qed.

Lemma no_shared_label_loaded3 :
  forall c, In c (columns (sample_metadata Examples.loaded3)) ->
            ~ In c (columns (data Examples.loaded3)).
Proof.
  vm_compute. intros c H. destruct H as [H | []]. subst c. intros G.
  repeat (destruct G as [G | G]; [discriminate G |]). exact G.
Qed.

Lemma save_merged_needs_a_shared_sample_witness :
  exists m,
    save_merged "merged.tsv" None Examples.loaded3 = Ok [("merged.tsv"%string, m)].
Proof.
  destruct (save_merged "merged.tsv" None Examples.loaded3) as [w | e] eqn:E;
    [| vm_compute in E; discriminate E].
  destruct (proj2 (save_merged_needs_a_shared_sample "merged.tsv" None Examples.loaded3
                     no_shared_label_loaded3) w E) as (m & _ & ->).
  exists m. reflexivity.
Defined.

(** X11.  [extract_metabolites], for identifiers that once printed are
    columns of an abundance table without a repeated column label and are
    no column of the sample metadata: the call goes through, the table
    has the columns of the sample metadata followed by the requested
    columns in the order of the request, and a sample is in it exactly
    when it is both in the metadata and in the abundance table. *)
Theorem extract_metabolites_inner_join (ids : ids_arg) (s : DatasetManager) :
  NoDup (columns (data s)) ->
  let L := map py_str (as_list ids) in
  incl L (columns (data s)) ->
  (forall c, In c (columns (sample_metadata s)) -> ~ In c L) ->
  exists df,
    extract_metabolites ids s = Ok df /\
    columns df = columns (sample_metadata s) ++ L /\
    (forall x, In x (index df) <->
       In x (index (sample_metadata s)) /\ In x (index (data s))).
Proof.
  intros Hn L HL Hd. unfold extract_metabolites, select_cols. cbv zeta. fold L.
  rewrite (proj2 (forallb_mem_incl _ _) HL). cbn [rbind].
  rewrite (occurrences_each_once _ _ Hn HL).
  match goal with
  | |- context [merge ?l ?r Inner] =>
      destruct (merge_disjoint l r Inner Hd) as [name ->]
  end.
  eexists. split; [reflexivity |]. cbn [columns rows]. split; [reflexivity |].
  intros x. unfold index. cbn [rows]. split.
  - intros Hx. apply in_map_iff in Hx. destruct Hx as [r [<- Hr]].
    apply join_inner_In in Hr. destruct Hr as [a [b (Ha & Hb & _)]]. split.
    + change (fst r) with (fst (fst r, a)). now apply in_map.
    + apply in_map_iff in Hb. destruct Hb as [r' [E Hr']].
      injection E as E _. rewrite <- E. now apply in_map.
  - intros [Hx Hy].
    apply in_map_iff in Hx. destruct Hx as [[x1 a] [E1 Ha]].
    apply in_map_iff in Hy. destruct Hy as [[x2 b] [E2 Hb]].
    cbn [fst] in E1, E2. subst x1 x2.
    apply in_map_iff.
    exists (x, a ++ flat_map (fun l => pick l (columns (data s)) b) L).
    split; [reflexivity |]. apply join_inner_In. cbn [fst snd].
    exists a, (flat_map (fun l => pick l (columns (data s)) b) L).
    split; [assumption |]. split; [| reflexivity].
    apply in_map_iff. exists (x, b). split; [reflexivity | assumption].
Qed.

Lemma extract_metabolites_inner_join_witness :
  exists df,
    extract_metabolites (One (Examples.S "M2")) Examples.loaded_two_of_three = Ok df /\
    columns df = [Examples.S "batch"; Examples.S "M2"].
Proof.
  assert (Hn : NoDup (columns (data Examples.loaded_two_of_three))) by nodup_concrete.
  pose proof (extract_metabolites_inner_join (One (Examples.S "M2"))
                Examples.loaded_two_of_three Hn) as H.
  cbv zeta in H. destruct H as (df & E & C & _).
  - in_concrete.
  - vm_compute. intros c H. destruct H as [H | []]. subst c. intros G.
    repeat (destruct G as [G | G]; [discriminate G |]). exact G.
  - exists df. split; [exact E |]. rewrite C. vm_compute. reflexivity.
Defined.

(** ** What an import builds *)

Lemma astype_str_col_run (c : value) (df : DataFrame) :
  occurrences c (columns df) = [c] ->
  exists df1, astype_str_col c df = Ok df1 /\ columns df1 = columns df.
Proof.
  intros H. unfold astype_str_col. rewrite (get_col_single _ _ H). cbn [rbind].
  unfold set_col. rewrite !length_map. unfold len. rewrite Nat.eqb_refl. cbn [negb].
  rewrite (proj2 (mem_In _ _) (occurrences_In _ _ H)). eexists. split; reflexivity.
Qed.

Lemma set_index_run (c : value) (df : DataFrame) :
  occurrences c (columns df) = [c] -> exists df2, set_index df c = Ok df2.
Proof. intros H. unfold set_index. rewrite H. eexists. reflexivity. Qed.

(** The steps of [_setup_data] on tables that have the identifier
    columns once: they all go through, and this is what they build. *)
Lemma setup_steps (d ca sm : DataFrame) (sid mid : value) :
  occurrences sid (columns sm) = [sid] -> rect sm ->
  is_str sid -> In sid (columns d) -> NoDup (map py_str (columns d)) ->
  occurrences mid (columns ca) = [mid] -> rect ca ->
  exists sm1 sm2 d2 ca1 ca2,
    astype_str_col sid sm = Ok sm1 /\ set_index sm1 sid = Ok sm2 /\
    set_columns d (map py_str (columns d)) = Ok (coerced_header d) /\
    set_index (coerced_header d) sid = Ok d2 /\
    astype_str_col mid ca = Ok ca1 /\ set_index ca1 mid = Ok ca2 /\
    index sm2 = map py_str (column_cells sid sm) /\
    columns sm2 = filter (fun x => negb (value_eqb x sid)) (columns sm) /\
    index ca2 = map py_str (column_cells mid ca) /\
    columns ca2 = filter (fun x => negb (value_eqb x mid)) (columns ca) /\
    index d2 = column_cells sid (coerced_header d) /\
    columns d2 = filter (fun x => negb (value_eqb x sid)) (map py_str (columns d)).
Proof.
  intros Osm Rsm Tsid Isid Nd Oca Rca.
  destruct (astype_str_col_run sid sm Osm) as (sm1 & A1 & C1).
  destruct (set_index_run sid sm1) as (sm2 & A2); [now rewrite C1 |].
  destruct (astype_str_col_run mid ca Oca) as (ca1 & A5 & C5).
  destruct (set_index_run mid ca1) as (ca2 & A6); [now rewrite C5 |].
  assert (Od : occurrences sid (columns (coerced_header d)) = [sid]).
  { unfold coerced_header. cbn [columns]. apply occurrences_once; [assumption |].
    rewrite <- (py_str_is_str sid Tsid). now apply in_map. }
  destruct (set_index_run sid (coerced_header d) Od) as (d2 & A4).
  exists sm1, sm2, d2, ca1, ca2.
  destruct (astype_then_set_index _ _ _ _ Rsm A1 A2) as (Ism & _ & Csm).
  destruct (astype_then_set_index _ _ _ _ Rca A5 A6) as (Ica & _ & Cca).
  destruct (set_index_ok _ _ _ A4) as (Id2 & _ & Cd2 & _).
  repeat split; try assumption.
  unfold set_columns. now rewrite length_map, Nat.eqb_refl.
Qed.

Lemma import_tables_unmatched (d ca sm : DataFrame) (s0 : DatasetManager)
    (sm1 sm2 d1 d2 ca1 ca2 : DataFrame) :
  let sid := _sample_id_column s0 in
  let mid := _metabolite_id_column s0 in
  mem sid (columns d) = true -> mem sid (columns sm) = true ->
  mem mid (columns ca) = true ->
  astype_str_col sid sm = Ok sm1 -> set_index sm1 sid = Ok sm2 ->
  set_columns d (map py_str (columns d)) = Ok d1 -> set_index d1 sid = Ok d2 ->
  astype_str_col mid ca = Ok ca1 -> set_index ca1 mid = Ok ca2 ->
  select_cols d2 (index ca2) = Raise KeyError ->
  import_tables d ca sm s0
  = (Raise KeyError,
     mkDM (_data_provider s0) sid sm2 (index sm2) mid ca2 (index ca2) d2).
Proof.
  intros sid mid M1 M2 M3 A1 A2 A3 A4 A5 A6 A7. subst sid mid.
  unfold import_tables, parser_import_tables, _setup_data, _remove_metadata_from_data,
    except_ValueError, bind, gets, raise, update_sample_metadata, update_data,
    update_chemical_annotation, assign_sample_metadata, assign_data, assign_samples,
    assign_chemical_annotation, assign_metabolites, bind, gets, lift, parse_input.
  proj. rewrite M1, M2. cbn [andb]. proj. rewrite A1. proj. rewrite A2. proj.
  rewrite A3. proj. rewrite A4. proj. rewrite M3. proj. rewrite A5. proj.
  rewrite A6. proj. rewrite A7. proj. reflexivity.
Qed.

(** X12.  An import of tables that hold the identifier columns once,
    with a text sample identifier column, rectangular metadata and
    annotation tables and abundance column labels that stay distinct once
    printed, goes through when every feature identifier of the
    annotation table, once printed, is an abundance column other than the
    sample identifier column.  The identifier columns, printed, become
    the indexes and leave the columns; [samples] and [metabolites] are
    those indexes; the abundance table keeps the columns named by the
    annotation table and no other, in the order of the annotation table,
    and its rows are labelled by its own sample identifier column. *)
Theorem import_builds_the_tables (d ca sm : DataFrame) (s0 : DatasetManager) :
  let sid := _sample_id_column s0 in
  let mid := _metabolite_id_column s0 in
  occurrences sid (columns sm) = [sid] -> rect sm ->
  is_str sid -> In sid (columns d) -> NoDup (map py_str (columns d)) ->
  occurrences mid (columns ca) = [mid] -> rect ca ->
  (forall x, In x (column_cells mid ca) ->
     py_str x <> sid /\ In (py_str x) (map py_str (columns d))) ->
  exists s,
    import_tables d ca sm s0 = (Ok tt, s) /\
    index (sample_metadata s) = map py_str (column_cells sid sm) /\
    columns (sample_metadata s)
      = filter (fun x => negb (value_eqb x sid)) (columns sm) /\
    samples s = index (sample_metadata s) /\
    index (chemical_annotation s) = map py_str (column_cells mid ca) /\
    columns (chemical_annotation s)
      = filter (fun x => negb (value_eqb x mid)) (columns ca) /\
    metabolites s = index (chemical_annotation s) /\
    columns (data s) = index (chemical_annotation s) /\
    index (data s) = column_cells sid (coerced_header d).
Proof.
  intros sid mid Osm Rsm Tsid Isid Nd Oca Rca Hall.
  destruct (setup_steps d ca sm sid mid Osm Rsm Tsid Isid Nd Oca Rca)
    as (sm1 & sm2 & d2 & ca1 & ca2 & A1 & A2 & A3 & A4 & A5 & A6
        & Ism & Csm & Ica & Cca & Id2 & Cd2).
  assert (Hin : incl (index ca2) (columns d2)).
  { rewrite Ica, Cd2. intros y Hy. apply in_map_iff in Hy. destruct Hy as [x [<- Hx]].
    destruct (Hall x Hx) as [Hne Hx']. apply filter_In. split; [assumption |].
    apply negb_true_iff. now apply value_eqb_neq. }
  assert (Nd2 : NoDup (columns d2)) by (rewrite Cd2; now apply NoDup_filter).
  set (d3 := mkDF (index_name d2) (index ca2)
               (map (fun r => (fst r,
                       flat_map (fun l => pick l (columns d2) (snd r)) (index ca2)))
                  (rows d2))).
  assert (A7 : select_cols d2 (index ca2) = Ok d3).
  { unfold select_cols. rewrite (proj2 (forallb_mem_incl _ _) Hin).
    now rewrite (occurrences_each_once _ _ Nd2 Hin). }
  eexists. split.
  - apply (import_tables_run d ca sm s0 sm1 sm2 (coerced_header d) d2 ca1 ca2 d3);
      try eassumption.
    + now apply mem_In.
    + apply mem_In. now apply occurrences_In.
    + apply mem_In. now apply occurrences_In.
  - proj. repeat split; try assumption; try reflexivity.
    unfold d3, index at 1. cbn [rows]. rewrite map_map. cbn [fst].
    exact Id2.
Qed.

Lemma import_builds_the_tables_witness :
  exists s,
    import_tables Examples.data3 Examples.chem2 Examples.meta3 Examples.fresh = (Ok tt, s) /\
    columns (data s) = index (chemical_annotation s).
Proof.
  pose proof (import_builds_the_tables Examples.data3 Examples.chem2 Examples.meta3
                Examples.fresh) as H.
  cbv zeta in H.
  destruct H as (s & E & _ & _ & _ & _ & _ & _ & C & _).
  - reflexivity.
  - repeat constructor.
  - exact I.
  - left. reflexivity.
  - nodup_concrete.
  - reflexivity.
  - repeat constructor.
  - intros x Hx. vm_compute in Hx.
    destruct Hx as [<- | [<- | []]]; (split; [discriminate | vm_compute; tauto]).
  - exists s. split; [exact E | exact C].
Defined.

(** X13.  With the same tables, when a feature identifier of the
    annotation table, once printed, is not among the abundance columns,
    the import raises [KeyError], which no handler of the import turns
    into the [ValueError] of the other failures.  The object is left
    with the three tables as they were built up to that point: the sample
    metadata and the annotation table indexed, [samples] and
    [metabolites] filled, and the abundance table indexed but with all
    its columns, those that are no feature included. *)
Theorem import_with_unmatched_annotation (d ca sm : DataFrame) (s0 : DatasetManager) :
  let sid := _sample_id_column s0 in
  let mid := _metabolite_id_column s0 in
  occurrences sid (columns sm) = [sid] -> rect sm ->
  is_str sid -> In sid (columns d) -> NoDup (map py_str (columns d)) ->
  occurrences mid (columns ca) = [mid] -> rect ca ->
  (exists x, In x (column_cells mid ca) /\
     ~ In (py_str x) (filter (fun c => negb (value_eqb c sid)) (map py_str (columns d)))) ->
  exists s,
    import_tables d ca sm s0 = (Raise KeyError, s) /\
    index (sample_metadata s) = map py_str (column_cells sid sm) /\
    samples s = index (sample_metadata s) /\
    index (chemical_annotation s) = map py_str (column_cells mid ca) /\
    metabolites s = index (chemical_annotation s) /\
    columns (data s)
      = filter (fun c => negb (value_eqb c sid)) (map py_str (columns d)) /\
    index (data s) = column_cells sid (coerced_header d).
Proof.
  intros sid mid Osm Rsm Tsid Isid Nd Oca Rca [x [Hx Hno]].
  destruct (setup_steps d ca sm sid mid Osm Rsm Tsid Isid Nd Oca Rca)
    as (sm1 & sm2 & d2 & ca1 & ca2 & A1 & A2 & A3 & A4 & A5 & A6
        & Ism & Csm & Ica & Cca & Id2 & Cd2).
  assert (A7 : select_cols d2 (index ca2) = Raise KeyError).
  { unfold select_cols. rewrite forallb_mem_missing; [reflexivity |].
    exists (py_str x). split; [rewrite Ica; now apply in_map | now rewrite Cd2]. }
  eexists. split.
  - apply (import_tables_unmatched d ca sm s0 sm1 sm2 (coerced_header d) d2 ca1 ca2);
      try eassumption.
    + now apply mem_In.
    + apply mem_In. now apply occurrences_In.
    + apply mem_In. now apply occurrences_In.
  - proj. repeat split; try assumption; reflexivity.
Qed.

Lemma import_with_unmatched_annotation_witness :
  exists s,
    import_tables Examples.data_unmatched Examples.chem2 Examples.meta3 Examples.fresh
      = (Raise KeyError, s) /\
    columns (data s) = [Examples.S "batch"; Examples.S "M1"].
Proof.
  pose proof (import_with_unmatched_annotation Examples.data_unmatched Examples.chem2
                Examples.meta3 Examples.fresh) as H.
  cbv zeta in H.
  destruct H as (s & E & _ & _ & _ & _ & C & _).
  - reflexivity.
  - repeat constructor.
  - exact I.
  - left. reflexivity.
  - nodup_concrete.
  - reflexivity.
  - repeat constructor.
  - exists (Examples.S "M2"). split; [vm_compute; tauto |].
    vm_compute. intros G. repeat (destruct G as [G | G]; [discriminate G |]). exact G.
  - exists s. split; [exact E |]. rewrite C. vm_compute. reflexivity.
Defined.

(** ** What the residual pipeline writes, and where it stops *)

Section Loop.

Variable model : Type.
Variable ols : string -> DataFrame -> result (Series * model).
Variable h : EffectsHandler.
Variable path : option string.

(** The file a model is pickled to. *)
Let pickle_name (m : value) : string :=
  (the_path path ++ "/" ++ text_of m ++ ".pickle")%string.

(** The loop over a list of metabolites is the loop over its first part
    followed, if that went through, by the loop over the rest. *)
Lemma fit_all_app (pre post : list value) (res : DataFrame)
    (files : list (string * model)) :
  fit_all model ols h path (pre ++ post) res files
  = match fit_all model ols h path pre res files with
    | (Ok _, res1, files1) => fit_all model ols h path post res1 files1
    | failed => failed
    end.
Proof.
  revert res files. induction pre as [| m pre IH]; intros res files; [reflexivity |].
  cbn [app fit_all]. destruct (fit_model model ols h m) as [[r mdl] | e]; [| reflexivity].
  destruct (set_col_series res m r) as [res' | e]; [| reflexivity].
  apply IH.
Qed.

(** The pickles added by the loop: one per metabolite fitted, in order,
    each holding the model its fit returned. *)
Lemma fit_all_files (todo : list value) (res : DataFrame)
    (files : list (string * model)) :
  exists fitted rest new,
    todo = fitted ++ rest /\
    snd (fit_all model ols h path todo res files)
      = (if truthy path then files ++ new else files) /\
    map fst new = map pickle_name fitted /\
    (forall p mdl, In (p, mdl) new ->
       exists m r, In m fitted /\ p = pickle_name m /\
                   fit_model model ols h m = Ok (r, mdl)) /\
    (forall u, fst (fst (fit_all model ols h path todo res files)) = Ok u -> rest = []).
Proof.
  revert res files. induction todo as [| m todo IH]; intros res files.
  - exists [], [], []. cbn [fit_all fst snd app map].
    rewrite app_nil_r. repeat split; try reflexivity.
    + now destruct (truthy path).
    + intros p mdl [].
  - cbn [fit_all]. destruct (fit_model model ols h m) as [[r mdl] | e] eqn:Efit.
    2:{ exists [], (m :: todo), []. cbn [fst snd app map]. rewrite app_nil_r.
        repeat split; try reflexivity.
        - now destruct (truthy path).
        - intros p mdl0 [].
        - intros u Hu. discriminate Hu. }
    destruct (set_col_series res m r) as [res' | e] eqn:Eset.
    2:{ exists [], (m :: todo), []. cbn [fst snd app map]. rewrite app_nil_r.
        repeat split; try reflexivity.
        - now destruct (truthy path).
        - intros p mdl0 [].
        - intros u Hu. discriminate Hu. }
    destruct (IH res' (if truthy path
                       then files ++ [((the_path path ++ "/" ++ text_of m
                                          ++ ".pickle")%string, mdl)]
                       else files))
      as (fitted & rest & new & Htodo & Hfiles & Hnames & Hmodels & Hdone).
    exists (m :: fitted), rest, ((pickle_name m, mdl) :: new).
    split; [now rewrite Htodo |]. split.
    { rewrite Hfiles. destruct (truthy path); [| reflexivity].
      now rewrite <- app_assoc. }
    split; [cbn [map fst]; now rewrite Hnames |]. split.
    + intros p mdl0 [E | Hin].
      * injection E as <- <-. exists m, r. split; [now left | now split].
      * destruct (Hmodels p mdl0 Hin) as (m' & r' & Hm' & Hp & Hf).
        exists m', r'. split; [now right | now split].
    + exact Hdone.
Qed.

End Loop.

(** X14.  What [get_all_residuals] leaves on disk.  The directory is made
    exactly when a path that is not empty is given, before any fit.
    Without such a path nothing is pickled.  With one, the pickles are
    those of a first part of the metabolite list, in order, one file
    [path/metabolite.pickle] per metabolite holding the model its fit
    returned; when the call returns a table the first part is the whole
    list. *)
Theorem pickles_follow_the_fits (model : Type)
    (ols : string -> DataFrame -> result (Series * model))
    (path : option string) (h : EffectsHandler) :
  let out := get_all_residuals model ols path h in
  let pickle_name := fun m => (the_path path ++ "/" ++ text_of m ++ ".pickle")%string in
  directories (snd out) = (if truthy path then [the_path path] else []) /\
  (truthy path = false -> pickles (snd out) = []) /\
  (truthy path = true ->
   exists fitted rest,
     metabolites (data_manager h) = fitted ++ rest /\
     map fst (pickles (snd out)) = map pickle_name fitted /\
     (forall res, fst (fst out) = Ok res -> rest = [])) /\
  (forall p mdl, In (p, mdl) (pickles (snd out)) ->
     exists m r, In m (metabolites (data_manager h)) /\ p = pickle_name m /\
                 fit_model model ols h m = Ok (r, mdl)).
Proof.
  intros out pickle_name.
  destruct (fit_all_files model ols h path (metabolites (data_manager h))
              (residuals h) [])
    as (fitted & rest & new & Htodo & Hfiles & Hnames & Hmodels & Hdone).
  unfold out, get_all_residuals.
  destruct (fit_all model ols h path (metabolites (data_manager h)) (residuals h) [])
    as [[o res] files] eqn:E.
  cbn [fst snd directories pickles] in *.
  split; [reflexivity |]. split; [| split].
  - intros Hp. now rewrite Hp in Hfiles.
  - intros Hp. rewrite Hp in Hfiles. cbn [app] in Hfiles. subst files.
    exists fitted, rest. split; [assumption |]. split; [assumption |].
    intros u Hu. destruct o as [[] | e]; [| discriminate Hu]. now apply (Hdone tt).
  - intros p mdl Hin. destruct (truthy path).
    + cbn [app] in Hfiles. subst files.
      destruct (Hmodels p mdl Hin) as (m & r & Hm & Hp & Hf).
      exists m, r. split; [| now split]. rewrite Htodo. apply in_or_app. now left.
    + subst files. contradiction.
Qed.

Lemma pickles_follow_the_fits_witness :
  exists fitted rest,
    metabolites (data_manager Examples.handler3) = fitted ++ rest /\
    map fst (pickles (snd (get_all_residuals unit Examples.zero_fit (Some "models")
                             Examples.handler3)))
      = map (fun m => ("models" ++ "/" ++ text_of m ++ ".pickle")%string) fitted /\
    rest = [].
Proof.
  pose proof (pickles_follow_the_fits unit Examples.zero_fit (Some "models")
                Examples.handler3) as H.
  cbv zeta in H. destruct H as (_ & _ & H & _).
  destruct (H eq_refl) as (fitted & rest & Hm & Hn & Hdone).
  exists fitted, rest. split; [exact Hm |]. split; [exact Hn |].
  destruct (fst (fst (get_all_residuals unit Examples.zero_fit (Some "models")
                        Examples.handler3))) as [res | e] eqn:E.
  - exact (Hdone res eq_refl).
  - exfalso. vm_compute in E. discriminate E.
Defined.

(** X15.  The loop stops at the first fit that raises.  When the
    metabolite list is [pre ++ m :: post], the metabolites of [pre] are
    fitted and stored without an error and the fit of [m] raises [e],
    [get_all_residuals] raises [e]; the handler keeps the residual table
    as it stood after [pre], with the columns of [pre] filled in, the
    pickles of [pre] stay written, and no metabolite of [post] is
    looked at. *)
Theorem first_failing_fit_stops_the_loop (model : Type)
    (ols : string -> DataFrame -> result (Series * model))
    (path : option string) (h : EffectsHandler)
    (pre post : list value) (m : value) (e : exn)
    (res1 : DataFrame) (files1 : list (string * model)) :
  metabolites (data_manager h) = pre ++ m :: post ->
  fit_all model ols h path pre (residuals h) [] = (Ok tt, res1, files1) ->
  fit_model model ols h m = Raise e ->
  get_all_residuals model ols path h
  = (Raise e,
     mkEH (data_manager h) (formula h) (merged h) res1,
     mkArtifacts (if truthy path then [the_path path] else []) files1).
Proof.
  intros Hm Hpre Hfit. unfold get_all_residuals.
  rewrite Hm, fit_all_app, Hpre. cbn [fit_all]. rewrite Hfit. reflexivity.
Qed.

Lemma first_failing_fit_stops_the_loop_witness :
  fst (fst (get_all_residuals unit Examples.fit_but_M2 (Some "models") Examples.handler3))
    = Raise ValueError /\
  map fst (pickles (snd (get_all_residuals unit Examples.fit_but_M2 (Some "models")
                           Examples.handler3)))
    = ["models/M1.pickle"%string].
Proof.
  destruct (fit_all unit Examples.fit_but_M2 Examples.handler3 (Some "models")
              [Examples.S "M1"] (residuals Examples.handler3) [])
    as [[o res1] files1] eqn:E.
  assert (Ho : o = Ok tt).
  { apply (f_equal (fun x => fst (fst x))) in E. cbn [fst] in E. rewrite <- E.
    vm_compute. reflexivity. }
  assert (Hf : map fst files1 = ["models/M1.pickle"%string]).
  { apply (f_equal (fun x => map fst (snd x))) in E. cbn [snd] in E. rewrite <- E.
    vm_compute. reflexivity. }
  subst o.
  rewrite (first_failing_fit_stops_the_loop unit Examples.fit_but_M2 (Some "models")
             Examples.handler3 [Examples.S "M1"] [] (Examples.S "M2") ValueError
             res1 files1).
  - split; [reflexivity | exact Hf].
  - vm_compute. reflexivity.
  - exact E.
  - vm_compute. reflexivity.
Defined.

(** ** The cells of the residual table *)

Lemma pick_put_other (c c' v : value) (cols cells : list value) :
  c' <> c -> pick c' cols (put c v cols cells) = pick c' cols cells.
Proof.
  intros Hne. unfold pick. revert cells.
  induction cols as [| x cols IH]; intros [| w cells]; try reflexivity.
  simpl. destruct (value_eqb x c') eqn:E.
  - apply value_eqb_eq in E. subst x.
    rewrite (proj2 (value_eqb_neq c' c) Hne). now rewrite IH.
  - apply IH.
Qed.

Lemma put_length (c v : value) (cols cells : list value) :
  List.length cells = List.length cols ->
  List.length (put c v cols cells) = List.length cols.
Proof.
  revert cells. induction cols as [| x cols IH]; intros [| w cells] H;
    try reflexivity; try discriminate H.
  simpl. f_equal. apply IH. now injection H.
Qed.

Lemma series_get_head (l v : value) (s : Series) : series_get ((l, v) :: s) l = v.
Proof. unfold series_get. simpl. now rewrite value_eqb_refl. Qed.

Lemma series_get_tail (l l' v : value) (s : Series) :
  l' <> l -> series_get ((l', v) :: s) l = series_get s l.
Proof.
  intros H. unfold series_get. simpl. now rewrite (proj2 (value_eqb_neq l' l) H).
Qed.

(** A series without a repeated label is read back label by label. *)
Lemma series_get_positional (s : Series) :
  NoDup (map fst s) -> map (series_get s) (map fst s) = map snd s.
Proof.
  induction s as [| [l v] s IH]; intros Hn; [reflexivity |].
  simpl in Hn. inversion Hn as [| ? ? Hl Hn']; subst.
  cbn [map fst snd]. rewrite series_get_head. f_equal.
  rewrite <- (IH Hn'). apply map_ext_in. intros x Hx.
  apply series_get_tail. intros ->. contradiction.
Qed.

Lemma is_unique_NoDup (l : list value) : is_unique l = true -> NoDup l.
Proof.
  induction l as [| x l IH]; intros H; [constructor |].
  simpl in H. apply andb_true_iff in H. destruct H as [H1 H2].
  constructor; [| now apply IH].
  apply negb_true_iff in H1. now apply mem_not_In.
Qed.

(** One assignment [self.residuals[c] = r] on a table with rows, distinct
    row labels and the column [c]: the column takes, row by row, what the
    series holds for the label of the row, and nothing else moves. *)
Lemma set_col_series_cells (res res' : DataFrame) (c : value) (r : Series) :
  rect res -> NoDup (index res) -> len res <> 0%nat -> In c (columns res) ->
  set_col_series res c r = Ok res' ->
  index res' = index res /\ columns res' = columns res /\
  index_name res' = index_name res /\ rect res' /\
  column_cells c res' = map (series_get r) (index res) /\
  (forall c', c' <> c -> column_cells c' res' = column_cells c' res).
Proof.
  intros Hr Hn Hlen Hc Hset. unfold set_col_series in Hset.
  rewrite (proj2 (Nat.eqb_neq _ _) Hlen) in Hset. cbn [andb] in Hset.
  assert (Hvals : exists vals,
            set_col res c vals = Ok res' /\ vals = map (series_get r) (index res)).
  { destruct (labels_eqb (map fst r) (index res)) eqn:El.
    - apply labels_eqb_eq in El. exists (map snd r). split; [assumption |].
      rewrite <- El. symmetry. apply series_get_positional. now rewrite El.
    - destruct (is_unique (map fst r)); [| discriminate Hset].
      eexists. split; [exact Hset | reflexivity]. }
  destruct Hvals as (vals & Hset' & ->). clear Hset.
  unfold set_col in Hset'. rewrite length_map in Hset'. unfold index, len in Hset'.
  rewrite length_map, Nat.eqb_refl in Hset'. cbn [negb] in Hset'.
  rewrite (proj2 (mem_In _ _) Hc) in Hset'. injection Hset' as <-.
  assert (Z : zip_with (fun (row0 : row) v => (fst row0, put c v (columns res) (snd row0)))
                (rows res) (map (series_get r) (map fst (rows res)))
              = map (fun row0 => (fst row0,
                                  put c (series_get r (fst row0)) (columns res) (snd row0)))
                  (rows res)).
  { rewrite map_map. now apply zip_with_same. }
  unfold row in *. rewrite Z. clear Z.
  unfold rect in Hr. rewrite Forall_forall in Hr.
  unfold index, column_cells, rect. cbn [rows columns index_name].
  rewrite !map_map. cbn [fst snd].
  split; [reflexivity |]. split; [reflexivity |]. split; [reflexivity |]. split; [| split].
  - apply Forall_forall. intros x Hx. apply in_map_iff in Hx.
    destruct Hx as [row0 [<- Hrow]]. cbn [snd]. apply put_length. now apply Hr.
  - apply map_ext_in. intros row0 Hrow. rewrite pick_put.
    destruct (pick c (columns res) (snd row0)) as [| w t] eqn:E; [| reflexivity].
    exfalso. apply (pick_present c (columns res) (snd row0)); auto.
  - intros c' Hne. rewrite map_map. apply map_ext. intros row0. cbn [snd].
    now rewrite pick_put_other.
Qed.

Section Cells.

Variable model : Type.
Variable ols : string -> DataFrame -> result (Series * model).
Variable h : EffectsHandler.
Variable path : option string.

(** The loop that runs to its end fills the column of every metabolite
    of its list and leaves the other columns alone. *)
Lemma fit_all_cells (todo : list value) (res res' : DataFrame)
    (files files' : list (string * model)) :
  rect res -> NoDup (index res) -> len res <> 0%nat ->
  NoDup todo -> incl todo (columns res) ->
  fit_all model ols h path todo res files = (Ok tt, res', files') ->
  index res' = index res /\ columns res' = columns res /\
  index_name res' = index_name res /\
  (forall m, In m todo ->
     exists r mdl, fit_model model ols h m = Ok (r, mdl) /\
       column_cells m res' = map (series_get r) (index res)) /\
  (forall c, ~ In c todo -> column_cells c res' = column_cells c res).
Proof.
  revert res files. induction todo as [| m todo IH];
    intros res files Hr Hn Hlen Hnd Hin Hrun.
  - cbn [fit_all] in Hrun. injection Hrun as <- _.
    repeat split; try reflexivity. intros m [].
  - cbn [fit_all] in Hrun.
    destruct (fit_model model ols h m) as [[r mdl] | e] eqn:Efit; [| discriminate Hrun].
    destruct (set_col_series res m r) as [res1 | e] eqn:Eset; [| discriminate Hrun].
    inversion Hnd as [| ? ? Hm Hnd']; subst.
    destruct (set_col_series_cells res res1 m r Hr Hn Hlen (Hin m (or_introl eq_refl)) Eset)
      as (I1 & C1 & N1 & R1 & Cm & Cother).
    assert (Hn1 : NoDup (index res1)) by now rewrite I1.
    assert (Hl1 : len res1 <> 0%nat).
    { unfold len in *. unfold index in I1.
      intros G. apply Hlen. apply length_zero_iff_nil in G.
      rewrite G in I1. destruct (rows res); [reflexivity | discriminate I1]. }
    assert (Hin1 : incl todo (columns res1)).
    { rewrite C1. intros x Hx. apply Hin. now right. }
    destruct (IH res1 _ R1 Hn1 Hl1 Hnd' Hin1 Hrun) as (I2 & C2 & N2 & Cfit & Crest).
    split; [congruence |]. split; [congruence |]. split; [congruence |]. split.
    + intros m' [<- | Hm'].
      * exists r, mdl. split; [assumption |]. now rewrite (Crest m Hm).
      * destruct (Cfit m' Hm') as (r' & mdl' & Hf & Hc).
        exists r', mdl'. split; [assumption |]. now rewrite Hc, I1.
    + intros c Hc. rewrite Crest by (intros G; apply Hc; now right).
      apply Cother. intros ->. apply Hc. now left.
Qed.

End Cells.

(** X16.  What the residual table holds when [get_all_residuals] returns.
    On a handler whose residual table is rectangular with at least one
    row and distinct row labels, and whose metabolites are distinct
    columns of that table, the returned table has the rows and the
    columns of that table; the column of every metabolite holds, row by
    row, what the residual series of its fit holds for the label of the
    row, the missing marker where the series has no such label; and a
    column that is no metabolite is as it was. *)
Theorem residual_cells_are_the_fitted_residuals (model : Type)
    (ols : string -> DataFrame -> result (Series * model))
    (path : option string) (h : EffectsHandler) (res : DataFrame) :
  rect (residuals h) -> NoDup (index (residuals h)) -> len (residuals h) <> 0%nat ->
  NoDup (metabolites (data_manager h)) ->
  incl (metabolites (data_manager h)) (columns (residuals h)) ->
  fst (fst (get_all_residuals model ols path h)) = Ok res ->
  index res = index (residuals h) /\ columns res = columns (residuals h) /\
  (forall m, In m (metabolites (data_manager h)) ->
     exists r mdl, fit_model model ols h m = Ok (r, mdl) /\
       column_cells m res = map (series_get r) (index res) /\
       (forall l, ~ In l (map fst r) -> series_get r l = VNaN)) /\
  (forall c, ~ In c (metabolites (data_manager h)) ->
     column_cells c res = column_cells c (residuals h)).
Proof.
  intros Hr Hn Hlen Hnd Hin Hout. unfold get_all_residuals in Hout.
  destruct (fit_all model ols h path (metabolites (data_manager h)) (residuals h) [])
    as [[o res'] files'] eqn:E.
  cbn [fst] in Hout. destruct o as [[] | e]; [| discriminate Hout].
  cbn [rbind] in Hout. injection Hout as ->.
  destruct (fit_all_cells model ols h path _ _ _ _ _ Hr Hn Hlen Hnd Hin E)
    as (I & C & _ & Cfit & Crest).
  split; [assumption |]. split; [assumption |]. split; [| assumption].
  intros m Hm. destruct (Cfit m Hm) as (r & mdl & Hf & Hc).
  exists r, mdl. split; [assumption |]. split; [now rewrite I |].
  intros l. apply series_get_absent.
Qed.

Lemma handler3_ready :
  rect (residuals Examples.handler3) /\ NoDup (index (residuals Examples.handler3)) /\
  len (residuals Examples.handler3) <> 0%nat /\
  NoDup (metabolites (data_manager Examples.handler3)) /\
  incl (metabolites (data_manager Examples.handler3))
    (columns (residuals Examples.handler3)).
Proof.
  split; [vm_compute; repeat constructor |].
  split; [nodup_concrete |].
  split; [vm_compute; discriminate |].
  split; [nodup_concrete | in_concrete].
Qed.

Lemma residual_cells_are_the_fitted_residuals_witness :
  exists res,
    fst (fst (get_all_residuals unit Examples.zero_fit None Examples.handler3)) = Ok res /\
    index res = index (residuals Examples.handler3).
Proof.
  destruct handler3_ready as (H1 & H2 & H3 & H4 & H5).
  destruct (fst (fst (get_all_residuals unit Examples.zero_fit None Examples.handler3)))
    as [res | e] eqn:E; [| exfalso; vm_compute in E; discriminate E].
  exists res. split; [reflexivity |].
  exact (proj1 (residual_cells_are_the_fitted_residuals unit Examples.zero_fit None
                  Examples.handler3 res H1 H2 H3 H4 H5 E)).
Defined.

(** ** The split by an annotation column *)









(** ** Splitting by a column that is not there *)

Lemma groupby_unknown (df : DataFrame) (c : value) :
  ~ In c (columns df) -> index_name df <> Some c -> groupby df c = Raise KeyError.
Proof.
  intros Hc Hn. unfold groupby, grouper. rewrite (occurrences_absent _ _ Hc).
  destruct (index_name df) as [n |]; [| reflexivity].
  rewrite (proj2 (value_eqb_neq n c)); [reflexivity |].
  intros ->. now apply Hn.
Qed.

(** X18.  A split by a label that is neither a column nor the index name
    of the table it groups raises [KeyError] before any member is built:
    [split_by_sample_column] for the sample metadata,
    [split_by_metabolite_column] for the annotation table. *)
Theorem split_by_unknown_column_raises (column : value) (s : DatasetManager) :
  (~ In column (columns (sample_metadata s)) ->
   index_name (sample_metadata s) <> Some column ->
   split_by_sample_column column s = Raise KeyError) /\
  (~ In column (columns (chemical_annotation s)) ->
   index_name (chemical_annotation s) <> Some column ->
   split_by_metabolite_column column s = Raise KeyError).
Proof.
  split; intros Hc Hn.
  - unfold split_by_sample_column. now rewrite (groupby_unknown _ _ Hc Hn).
  - unfold split_by_metabolite_column. now rewrite (groupby_unknown _ _ Hc Hn).
Qed.

Lemma split_by_unknown_column_raises_witness :
  split_by_sample_column (Examples.S "site") Examples.loaded3 = Raise KeyError.
Proof.
  apply (proj1 (split_by_unknown_column_raises (Examples.S "site") Examples.loaded3)).
  - vm_compute. intros G. repeat (destruct G as [G | G]; [discriminate G |]). exact G.
  - vm_compute. discriminate.
Defined.

(** ** The constructor *)




